(** * Dynamic greenhouse-gas budget: the stock-flow simulator and the curve solver

    A verification development for the scripts

    - [01_static budget determination/calculations_year_by_year.py]
    - [01_static budget determination/parallel coordinates.py]
    - [03_dynamic budget determination/dynamic_ee_budget.py]
    - [03_dynamic budget determination/dynamic_oe_budget.py]

    Modelling conventions.

    - The two stock-flow scripts are embedded twice.  Once over exact
      rationals in lowest terms ([Qc]; modules [YearByYear] and
      [ParallelCoordinates]; a decimal literal [0.887] is written
      [dec 0.887]): the statements made there either do not depend on
      rounding or carry bounds that keep binary64 arithmetic away from
      overflow, underflow and cancellation.  And once over an interface
      [Float] (modules [YearByYearF] and [ParallelCoordinatesF]) with three
      instances: exact rationals with Python's division, IEEE binary64 with
      Python's division, and IEEE binary64 with NumPy's scalar division; the
      statements made there hold in each of these arithmetics and are
      evaluated in binary64 on concrete constants.  The exact modules are the
      instance [python_exact] of the modules over [Float]
      ([exact_model_is_instance], [exact_call_is_instance]).
    - The curve solver is written once over the interface [Float].
    - A Python [int] is a [Z]; an [int] used in float arithmetic is converted
      ([of_int], [of_Z]).
    - An exception is a value [Raise e] of the type [result]; the only
      exception these scripts can raise is [ZeroDivisionError].
    - Module-level constants are the fields of a record (or the variables of
      a section) so that statements can range over them. *)

From Stdlib Require Import ZArith QArith Qcanon Qcabs List Lia Lqa Bool.
From Stdlib Require Import Qabs PrimFloat Uint63 FloatOps SpecFloat.
Import ListNotations.

Set Warnings "-inexact-float".

(** ** The Python runtime the scripts rely on *)

Module Py.

Inductive exn : Type := ZeroDivisionError.

Inductive result (A : Type) : Type :=
| Ok (a : A)
| Raise (e : exn).
Arguments Ok {A} a.
Arguments Raise {A} e.

Local Open Scope Qc_scope.

Definition bind {A B : Type} (m : result A) (k : A -> result B) : result B :=
  match m with
  | Ok a => k a
  | Raise e => Raise e
  end.

Definition is_ok {A : Type} (m : result A) : bool :=
  match m with Ok _ => true | Raise _ => false end.

(** A decimal literal, and an int converted to a float. *)
Definition dec (q : Q) : Qc := Q2Qc q.
Definition of_int (z : Z) : Qc := Q2Qc (inject_Z z).

(** [x / y] on floats: raises when the divisor is zero. *)
Definition truediv (x y : Qc) : result Qc :=
  if Qc_eq_bool y 0 then Raise ZeroDivisionError else Ok (x / y).

(** [range(lo, hi)]. *)
Definition range (lo hi : Z) : list Z :=
  map (fun i => (lo + Z.of_nat i)%Z) (seq 0 (Z.to_nat (hi - lo))).

(** [sum(xs)]: a left fold that starts from [0]. *)
Definition sum (xs : list Qc) : Qc := fold_left Qcplus xs 0.

(** [for x in xs: s = body(x, s)], where the body may raise. *)
Fixpoint for_ {X S : Type} (xs : list X) (body : X -> S -> result S) (s : S)
  : result S :=
  match xs with
  | [] => Ok s
  | x :: xs' => bind (body x s) (for_ xs' body)
  end.

End Py.

Import Py.

Declare Scope py_scope.
Delimit Scope py_scope with py.
Notation "x <- m ;; k" := (bind m (fun x => k))
  (at level 61, m at next level, right associativity) : py_scope.
Notation "' p <- m ;; k" := (bind m (fun x => match x with p => k end))
  (at level 61, p pattern, m at next level, right associativity) : py_scope.

Open Scope Qc_scope.
Open Scope py_scope.

(** The local variables that the horizon loop updates; the loop is written
    out in both files of [01_static budget determination], with the same
    variables. *)
Record locals : Type := {
  Ae_current : Qc;
  Ae_list : list Qc;
  Anew_list : list Qc;
  op_em_list : list Qc;
  emb_em_list : list Qc
}.

(** ** calculations_year_by_year.py *)

Module YearByYear.

(** The module-level constants (lines 4-30). *)
Record globals : Type := {
  GB : Qc;
  Fn : Qc;
  Fb : Qc;
  Fe : Qc;
  rn : Qc;
  rd : Qc;
  rr : Qc;
  year_GHG_neutrality : Z;
  Ae_initial : Qc
}.

Definition Ae_residential : Qc := of_int (4024768000 - 127039000) * dec 1.87 * dec 0.83.
Definition Ae_nonresidential : Qc := of_int 3073000000.

(** The values the file assigns. *)
Definition default : globals := {|
  GB := of_int (550 - 185) / dec 0.887;
  Fn := dec 0.0106;
  Fb := dec 0.303;
  Fe := dec 0.3707;
  rn := dec 0.009;
  rd := dec 0.001;
  rr := dec 0.01;
  year_GHG_neutrality := 2045;
  Ae_initial := Ae_residential + Ae_nonresidential
|}.

Section Globals.

Variable g : globals.

Definition Fo : Qc := 1 - Fe g.

Definition years_pre : Z := 2025 - 2021.

(** One pass of the pre-correction loop (lines 48-52). *)
Definition pre_step (Ae_temp : Qc) : Qc :=
  let pre_An := rn g * Ae_temp in
  let pre_Ad := rd g * Ae_temp in
  Ae_temp + (pre_An - pre_Ad).

Definition Ae_2025 : Qc :=
  fold_left (fun Ae_temp _ => pre_step Ae_temp) (range 0 years_pre) (Ae_initial g).

Definition share_operational : Qc := GB g * Fn g * Fb g * Fo * dec 1e12.
Definition share_embodied : Qc := GB g * Fn g * Fb g * Fe g * dec 1e12.

(** [year_GHG_neutrality + 1 - 2025], an int used as a float divisor. *)
Definition horizon_length : Qc := of_int (year_GHG_neutrality g + 1 - 2025).

(** The body of [for year in years] (lines 72-95). *)
Definition body (year : Z) (s : locals) : result locals :=
  let An := rn g * Ae_current s in
  let Ad := rd g * Ae_current s in
  let Ar := rr g * Ae_current s in
  let Ae_current' := Ae_current s + (An - Ad) in
  let A_new := An + Ar in
  q <- truediv share_operational horizon_length ;;
  E_op <- truediv q Ae_current' ;;
  q <- truediv share_embodied horizon_length ;;
  q <- truediv q A_new ;;
  E_emb <- truediv q (of_int 50) ;;
  Ok {| Ae_current := Ae_current';
        Ae_list := Ae_list s ++ [Ae_current'];
        Anew_list := Anew_list s ++ [A_new];
        op_em_list := op_em_list s ++ [E_op];
        emb_em_list := emb_em_list s ++ [E_emb] |}.

Definition years : list Z := range 2025 (year_GHG_neutrality g + 1).

Definition initial_locals : locals :=
  {| Ae_current := Ae_2025;
     Ae_list := []; Anew_list := []; op_em_list := []; emb_em_list := [] |}.

Definition calculate_emissions_year_by_year
  : result (list Z * list Qc * list Qc * list Qc * list Qc) :=
  s <- for_ years body initial_locals ;;
  Ok (years, Ae_list s, Anew_list s, op_em_list s, emb_em_list s).

(** Lines 100-111: the call, the two sums and the two averages that the
    script prints; the result is (operational, embodied). *)
Definition averages : result (Qc * Qc) :=
  '(_, _, _, op_em, emb_em) <- calculate_emissions_year_by_year ;;
  let total_op_em := sum op_em in
  let total_emb_em := sum emb_em in
  average_op <- truediv total_op_em horizon_length ;;
  average_emb <- truediv total_emb_em horizon_length ;;
  Ok (average_op, average_emb).

(** The area part of the horizon loop on its own (lines 74-82 and 92-93):
    the pairs (total area, newly added area) of [n] consecutive years. *)
Fixpoint area_evolution_from (n : nat) (Ae_current : Qc) : list (Qc * Qc) :=
  match n with
  | O => []
  | S n' =>
      let An := rn g * Ae_current in
      let Ad := rd g * Ae_current in
      let Ar := rr g * Ae_current in
      let Ae_current' := Ae_current + (An - Ad) in
      (Ae_current', An + Ar) :: area_evolution_from n' Ae_current'
  end.

Definition area_evolution : list (Qc * Qc) :=
  area_evolution_from (length years) Ae_2025.

End Globals.

End YearByYear.

(** ** parallel coordinates.py *)

Module ParallelCoordinates.

Definition Fb : Qc := dec 0.303.
Definition Fe : Qc := dec 0.3707.
Definition Fo : Qc := 1 - Fe.

Definition Ae_residential : Qc := of_int (4024768000 - 127039000) * dec 1.87 * dec 0.83.
Definition Ae_nonresidential : Qc := of_int 3073000000.
Definition Ae_initial : Qc := Ae_residential + Ae_nonresidential.

Section Arguments_.

Variables (GB Fn : Qc) (year_GHG_neutrality : Z) (rn rr rd : Qc).

(** Lines 43-44; [0.887] is a nonzero literal, the division cannot raise. *)
Definition GB' : Qc := GB - of_int 185.
Definition GB_GHG : Qc := GB' / dec 0.887.

Definition years_pre : Z := 2025 - 2021.

Definition pre_step (Ae_temp : Qc) : Qc :=
  let pre_An := rn * Ae_temp in
  let pre_Ad := rd * Ae_temp in
  Ae_temp + (pre_An - pre_Ad).

Definition Ae_2025 : Qc :=
  fold_left (fun Ae_temp _ => pre_step Ae_temp) (range 0 years_pre) Ae_initial.

Definition years : list Z := range 2025 (year_GHG_neutrality + 1).

Definition share_operational : Qc := GB_GHG * Fn * Fb * Fo * dec 1e12.
Definition share_embodied : Qc := GB_GHG * Fn * Fb * Fe * dec 1e12.

Definition horizon_length : Qc := of_int (year_GHG_neutrality + 1 - 2025).

(** The body of [for year in years] (lines 84-107). *)
Definition body (year : Z) (s : locals) : result locals :=
  let An := rn * Ae_current s in
  let Ad := rd * Ae_current s in
  let Ar := rr * Ae_current s in
  let Ae_current' := Ae_current s + (An - Ad) in
  let A_new := An + Ar in
  q <- truediv share_operational horizon_length ;;
  E_op <- truediv q Ae_current' ;;
  q <- truediv share_embodied horizon_length ;;
  q <- truediv q A_new ;;
  E_emb <- truediv q (of_int 50) ;;
  Ok {| Ae_current := Ae_current';
        Ae_list := Ae_list s ++ [Ae_current'];
        Anew_list := Anew_list s ++ [A_new];
        op_em_list := op_em_list s ++ [E_op];
        emb_em_list := emb_em_list s ++ [E_emb] |}.

Definition initial_locals : locals :=
  {| Ae_current := Ae_2025;
     Ae_list := []; Anew_list := []; op_em_list := []; emb_em_list := [] |}.

(** The loop of lines 84-107, with the lists it has filled. *)
Definition horizon_loop : result locals := for_ years body initial_locals.

Definition calculate_emissions : result (Qc * Qc) :=
  s <- horizon_loop ;;
  let total_op_em := sum (op_em_list s) in
  let total_emb_em := sum (emb_em_list s) in
  average_op_em <- truediv total_op_em horizon_length ;;
  average_emb_em <- truediv total_emb_em horizon_length ;;
  Ok (average_op_em, average_emb_em).

End Arguments_.

End ParallelCoordinates.

(** ** The float arithmetic of the curve solver

    The two [dynamic_*_budget.py] scripts are written once over this
    interface.  [div] is the quotient of the number format; [fdiv] below is
    the operator [x / y] of the runtime, which Python's [float] makes raise
    [ZeroDivisionError] on a zero divisor and NumPy's [float64] scalar does
    not (it yields an infinity or a nan, with a warning). *)

Class Float (F : Type) : Type := {
  of_Z : Z -> F;
  add : F -> F -> F;
  sub : F -> F -> F;
  mul : F -> F -> F;
  neg : F -> F;
  div : F -> F -> F;
  is_zero : F -> bool;
  zero_division_raises : bool
}.

Definition fdiv {F : Type} {FL : Float F} (x y : F) : result F :=
  if zero_division_raises && is_zero y then Raise ZeroDivisionError
  else Ok (div x y).

(** An int converted to binary64 (exact below 2^53). *)
Definition float_of_Z (z : Z) : float :=
  match z with
  | Z0 => 0%float
  | Zpos _ => PrimFloat.of_uint63 (Uint63.of_Z z)
  | Zneg p => PrimFloat.opp (PrimFloat.of_uint63 (Uint63.of_Z (Zpos p)))
  end.

(** Python floats, in exact arithmetic. *)
Definition python_exact : Float Qc := {|
  of_Z := of_int;
  add := Qcplus; sub := Qcminus; mul := Qcmult; neg := Qcopp; div := Qcdiv;
  is_zero := fun y => Qc_eq_bool y 0;
  zero_division_raises := true
|}.

(** Python floats, as IEEE binary64 values. *)
Definition python_binary64 : Float float := {|
  of_Z := float_of_Z;
  add := PrimFloat.add; sub := PrimFloat.sub; mul := PrimFloat.mul;
  neg := PrimFloat.opp; div := PrimFloat.div;
  is_zero := fun y => PrimFloat.eqb y 0%float;
  zero_division_raises := true
|}.

(** NumPy [float64] scalars: the same format, a division that never raises. *)
Definition numpy_binary64 : Float float := {|
  of_Z := float_of_Z;
  add := PrimFloat.add; sub := PrimFloat.sub; mul := PrimFloat.mul;
  neg := PrimFloat.opp; div := PrimFloat.div;
  is_zero := fun y => PrimFloat.eqb y 0%float;
  zero_division_raises := false
|}.

Declare Scope fl_scope.
Delimit Scope fl_scope with fl.
Infix "+" := add : fl_scope.
Infix "-" := sub : fl_scope.
Infix "*" := mul : fl_scope.
Notation "- x" := (neg x) : fl_scope.

(** ** dynamic_ee_budget.py and dynamic_oe_budget.py: the shared solver

    Both scripts run the same statements on their own constants: the static
    level [x_e_base] or [x_op_base] (here [x_base]), the curve [Z] of a year
    (here [Z_], since [Z] names the integers), the ratio [factor_2025_2045],
    and [scipy.integrate.quad], of which only the value is kept ([quad]). *)

Module Solver.

Definition T_min : Z := 2025.
Definition T_max : Z := 2045.

Section Script.

Context {F : Type} {FL : Float F}.
Variable x_base : F.
Variable Z_ : F -> F.
Variable factor_2025_2045 : F.
Variable quad : (F -> F) -> F -> F -> F.

Local Open Scope fl_scope.

Definition I_constant : F := x_base * of_Z (T_max - T_min).

Definition Z_2025 : F := Z_ (of_Z T_min).
Definition Z_2045 : F := Z_ (of_Z T_max).

Definition Z_of_t (t : F) : F := Z_ t.

Definition I_Z : F := quad Z_of_t (of_Z T_min) (of_Z T_max).

(** [numerator] and [denom] of [solve_for_a_b], named for the statements. *)
Definition numerator : F := - (Z_2045 - factor_2025_2045 * Z_2025).

Definition denom : F :=
  div numerator (of_Z 1 - factor_2025_2045) * of_Z (T_max - T_min) + I_Z.

Definition solve_for_a_b : result (F * F) :=
  let numerator := - (Z_2045 - factor_2025_2045 * Z_2025) in
  let a_in_terms_of_b := fun b => fdiv (b * numerator) (of_Z 1 - factor_2025_2045) in
  q <- fdiv numerator (of_Z 1 - factor_2025_2045) ;;
  let denom := q * of_Z (T_max - T_min) + I_Z in
  b_sol <- fdiv I_constant denom ;;
  a_sol <- a_in_terms_of_b b_sol ;;
  Ok (a_sol, b_sol).

Definition dynamic (a b : F) (t : F) : F := a + b * Z_ t.

(** The statements from [a, b = solve_for_a_b()] to the two recomputed
    quantities that the script prints: the result is
    [(a, b, ratio_2045_2025, I_dynamic)]. *)
Definition script : result (F * F * F * F) :=
  '(a, b) <- solve_for_a_b ;;
  ratio_2045_2025 <- fdiv (dynamic a b (of_Z T_max)) (dynamic a b (of_Z T_min)) ;;
  let I_dynamic := quad (dynamic a b) (of_Z T_min) (of_Z T_max) in
  Ok (a, b, ratio_2045_2025, I_dynamic).

End Script.

(** Simpson's rule on one panel: a quadrature to put in the place of
    [scipy.integrate.quad] when a statement is run on concrete numbers.  It is
    exact on polynomials of degree at most three. *)
Definition simpson {F : Type} {FL : Float F} (h : F -> F) (lo hi : F) : F :=
  (div (hi - lo) (of_Z 6) * (h lo + of_Z 4 * h (div (lo + hi) (of_Z 2)) + h hi))%fl.

End Solver.

(** ** dynamic_ee_budget.py: the constants of the embodied-emissions script *)

Module DynamicEE.

Definition x_e_base : Qc := dec 2.41.

Definition I_constant : Qc := x_e_base * of_int (Solver.T_max - Solver.T_min).

Definition f (x : Qc) : Qc :=
  dec (-85.68522642828206) * x ^ 3 + dec 182.2869409438485 * x ^ 2
  + dec (-138.8758533234043) * x + dec 47.363212824263705.

(** [T_max - T_min] is the nonzero constant 20: this division cannot raise. *)
Definition scale_year (year : Qc) : Qc :=
  (year - of_int Solver.T_min) / of_int (Solver.T_max - Solver.T_min).

Definition Z_ (year : Qc) : Qc :=
  let x := scale_year year in
  f x.

Definition factor_2025_2045 : Qc := dec 5.9 / dec 47.7.

Definition solve_for_a_b (quad : (Qc -> Qc) -> Qc -> Qc -> Qc) : result (Qc * Qc) :=
  Solver.solve_for_a_b (FL := python_exact) x_e_base Z_ factor_2025_2045 quad.

Definition script (quad : (Qc -> Qc) -> Qc -> Qc -> Qc) : result (Qc * Qc * Qc * Qc) :=
  Solver.script (FL := python_exact) x_e_base Z_ factor_2025_2045 quad.

End DynamicEE.

(** ** dynamic_oe_budget.py: the constants of the operational-emissions script

    [numpy.exp] and [numpy.sin] are taken as parameters. *)

Module DynamicOE.

Definition x_op_base : Qc := dec 3.86.

Definition I_constant : Qc := x_op_base * of_int (Solver.T_max - Solver.T_min).

Definition w : Qc := dec 0.137.

Section Numpy.

Variables np_exp np_sin : Qc -> Qc.

Definition f (x : Qc) : Qc :=
  dec 88.71710115840355
  / (1 + np_exp (- (- dec 3.348762256837263) * (x - dec 0.4505688285851687))).

Definition g (x : Qc) : Qc :=
  dec 36.10080564331148 * np_sin (dec 0.3155578919710513 * x + dec 3.058151974258264)
  + dec 39.54060321870498.

Definition scale_year (year : Qc) : Qc :=
  (year - of_int Solver.T_min) / of_int (Solver.T_max - Solver.T_min).

Definition Z_ (year : Qc) : Qc :=
  let x := scale_year year in
  (1 - w) * f x + w * g x.

End Numpy.

Definition factor_2025_2045 : Qc :=
  w * (dec 4.3 / dec 42.2) + (1 - w) * (dec 11.6 / dec 71.9).

End DynamicOE.

(** ** Vocabulary of the statements *)

(** Every year of an area series has a nonzero total area and a nonzero
    newly added area: the two divisors of the horizon loop. *)
Definition nonzero_areas (ev : list (Qc * Qc)) : bool :=
  forallb (fun p => negb (Qc_eq_bool (fst p) 0) && negb (Qc_eq_bool (snd p) 0)) ev.

(** The constants of calculations_year_by_year.py that correspond to a call
    [calculate_emissions(GB, Fn, year_GHG_neutrality, rn, rr, rd)] of
    parallel coordinates.py: its [GB] is the budget after lines 43-44. *)
Definition globals_of_call (GB Fn : Qc) (year_GHG_neutrality : Z) (rn rr rd : Qc)
  : YearByYear.globals :=
  {| YearByYear.GB := ParallelCoordinates.GB_GHG GB;
     YearByYear.Fn := Fn;
     YearByYear.Fb := ParallelCoordinates.Fb;
     YearByYear.Fe := ParallelCoordinates.Fe;
     YearByYear.rn := rn;
     YearByYear.rd := rd;
     YearByYear.rr := rr;
     YearByYear.year_GHG_neutrality := year_GHG_neutrality;
     YearByYear.Ae_initial := ParallelCoordinates.Ae_initial |}.

(** The contract of the specification's Budget Allocator, in its words, to
    compare the code's two category budgets with. *)
Definition allocate (global_budget_Gt pre_horizon_deduction_Gt co2_to_ghg_factor
                     national_share sector_share category_share : Qc) : Qc :=
  (global_budget_Gt - pre_horizon_deduction_Gt) / co2_to_ghg_factor
  * national_share * sector_share * category_share * dec 1e12.

(** The strict order on exact floats as a test. *)
Definition Qclt_bool (x y : Qc) : bool := negb (Qle_bool y x).

(** [x] is within the relative tolerance [tol] of [y]. *)
Definition within (tol x y : Qc) : Prop := Qcabs (x - y) <= tol * Qcabs y.

(** ** Scenarios: the constants of the files with some of them changed *)

Module Scenario.

Import YearByYear.


(** The constants of the file with no construction and a demolition rate of
    two: the total area changes sign every year. *)
Definition demolition_overwhelms : globals :=
  {| GB := GB default; Fn := Fn default; Fb := Fb default; Fe := Fe default;
     rn := 0; rd := of_int 2; rr := rr default;
     year_GHG_neutrality := year_GHG_neutrality default;
     Ae_initial := Ae_initial default |}.

(** The constants of the file with [GB] set to 550, the value that
    parallel coordinates.py passes as the argument [GB] for 1.7 degrees and
    83 %. *)
Definition GB_as_argument : globals :=
  {| GB := of_int 550; Fn := Fn default; Fb := Fb default; Fe := Fe default;
     rn := rn default; rd := rd default; rr := rr default;
     year_GHG_neutrality := year_GHG_neutrality default;
     Ae_initial := Ae_initial default |}.

(** A nearly constant curve in binary64: it declines from 50 by 1e-13 over
    the horizon. *)
Definition Z_nearly_constant (year : float) : float :=
  let x := PrimFloat.div (PrimFloat.sub year (float_of_Z Solver.T_min))
                         (float_of_Z (Solver.T_max - Solver.T_min)) in
  PrimFloat.sub 50%float (PrimFloat.mul 1e-13%float x).

(** A line in binary64, from 30 in 2025 down to 10 in 2045. *)
Definition Z_line (year : float) : float :=
  let x := PrimFloat.div (PrimFloat.sub year (float_of_Z Solver.T_min))
                         (float_of_Z (Solver.T_max - Solver.T_min)) in
  PrimFloat.sub 30%float (PrimFloat.mul 20%float x).

End Scenario.

Import Scenario.

(** ** parallel coordinates.py: the sweep over all parameter combinations *)

From Stdlib Require Import Qround.
From Stdlib Require String.
Import String.StringSyntax.
Delimit Scope string_scope with string.

Module Sweep.

(** Lines 9-13: the global budgets in Gt CO2 by temperature goal and
    probability, in the order of the dict. *)
Definition global_budget : list ((Qc * Z) * Z) :=
  [ ((dec 1.5, 17%Z), 900%Z); ((dec 1.5, 33%Z), 650%Z); ((dec 1.5, 50%Z), 500%Z);
    ((dec 1.5, 67%Z), 400%Z); ((dec 1.5, 83%Z), 300%Z);
    ((dec 1.7, 17%Z), 1450%Z); ((dec 1.7, 33%Z), 1050%Z); ((dec 1.7, 50%Z), 850%Z);
    ((dec 1.7, 67%Z), 700%Z); ((dec 1.7, 83%Z), 550%Z);
    ((dec 2.0, 17%Z), 2300%Z); ((dec 2.0, 33%Z), 1700%Z); ((dec 2.0, 50%Z), 1350%Z);
    ((dec 2.0, 67%Z), 1150%Z); ((dec 2.0, 83%Z), 900%Z) ].

(** Lines 16-20. *)
Definition Fn_values : list (String.string * Qc) :=
  [ ("Equal per capita"%string, dec 0.0106);
    ("Grandfathering"%string, dec 0.0179);
    ("GDP proportional"%string, dec 0.0407) ].

(** [range(lo, hi, step)] for a positive step. *)
Definition range_step (lo hi step : Z) : list Z :=
  map (fun i => (lo + Z.of_nat i * step)%Z)
      (seq 0 (Z.to_nat ((hi - lo + step - 1) / step))).

(** [numpy.arange(start, stop, step)] for a positive step:
    [ceil((stop - start) / step)] values [start + i * step]. *)
Definition arange (start stop step : Qc) : list Qc :=
  map (fun i => start + of_int (Z.of_nat i) * step)
      (seq 0 (Z.to_nat (Qceiling ((stop - start) / step)))).

(** One entry of [rows] (lines 127-129). *)
Record row : Type := {
  temp_goal : Qc;
  prob : Z;
  fn_label : String.string;
  Fn_percent : Qc;
  year_GHG_neutrality : Z;
  rn_percent : Qc;
  rr_percent : Qc;
  rd_percent : Qc;
  op_emissions : Qc;
  emb_emissions : Qc
}.

(** Lines 119-129: the six nested loops; a call that raises ends the sweep. *)
Definition rows : result (list row) :=
  for_ global_budget (fun '((temp_goal, prob), GB) rows =>
  for_ Fn_values (fun '(fn_label, Fn) rows =>
  for_ (range_step 2035 2051 5) (fun year_GHG_neutrality rows =>
  for_ (arange (dec 0.005) (dec 0.0151) (dec 0.002)) (fun rn rows =>
  for_ (arange (dec 0.005) (dec 0.0201) (dec 0.0025)) (fun rr rows =>
  for_ (arange (dec 0.0005) (dec 0.0051) (dec 0.0005)) (fun rd rows =>
    '(op_emissions, emb_emissions) <-
       ParallelCoordinates.calculate_emissions (of_int GB) Fn
         year_GHG_neutrality rn rr rd ;;
    Ok (rows ++ [ {| temp_goal := temp_goal; prob := prob; fn_label := fn_label;
                     Fn_percent := Fn * of_int 100;
                     year_GHG_neutrality := year_GHG_neutrality;
                     rn_percent := rn * of_int 100;
                     rr_percent := rr * of_int 100;
                     rd_percent := rd * of_int 100;
                     op_emissions := op_emissions;
                     emb_emissions := emb_emissions |} ])
  ) rows) rows) rows) rows) rows) [].

End Sweep.

(** ** More vocabulary *)

(** The factor by which one year's stock change multiplies the area. *)
Definition growth (g : YearByYear.globals) : Qc :=
  1 + YearByYear.rn g - YearByYear.rd g.

(** ** The stock-flow files in the arithmetic of the runtime

    The two files of [01_static budget determination] once more, now over
    the interface [Float], as the curve solver is: a statement about these
    definitions ranges over the number format (exact rationals or IEEE
    binary64, with its rounding, infinities and nan) and over the division of
    the runtime.

    calculations_year_by_year.py computes with Python floats only, so every
    division in it raises on a zero divisor.  In parallel coordinates.py the
    rates [rn], [rr], [rd] have the type the caller passes: the sweep of the
    file itself (lines 123-125) passes [numpy.float64] scalars, and then the
    areas, the intensities and their sums are [numpy.float64] too and a
    division by one of them does not raise.  The budget, the shares and the
    horizon length are Python numbers in either case. *)

Section RuntimeArithmetic.

Context {F : Type} {FL : Float F}.

(** A decimal literal, given as the fraction [n/d] it denotes: the float
    nearest to it (both [n] and [d] are below 2^53 in these files). *)
Definition lit (q : Q) : F := div (of_Z (Qnum q)) (of_Z (Z.pos (Qden q))).

(** [x / y] on two Python floats. *)
Definition pydiv (x y : F) : result F :=
  if is_zero y then Raise ZeroDivisionError else Ok (div x y).

(** [x / n] for a Python float or int [x] and a Python int [n]: the int is
    converted, and it is a zero divisor exactly when it is 0. *)
Definition pydiv_int (x : F) (n : Z) : result F :=
  if (n =? 0)%Z then Raise ZeroDivisionError else Ok (div x (of_Z n)).

(** [x / n] for an [x] of the type of the rates and a Python int [n]. *)
Definition fdiv_int (x : F) (n : Z) : result F :=
  if zero_division_raises && (n =? 0)%Z then Raise ZeroDivisionError
  else Ok (div x (of_Z n)).

(** [sum(xs)]: a left fold that starts from the int 0.  (From version 3.12
    on, CPython compensates the rounding of a sum of Python floats; the sum of
    [numpy.float64] values is this fold in every version.  No statement below
    is about the last digits of a sum.) *)
Definition fsum (xs : list F) : F := fold_left add xs (of_Z 0).

(** [sum(xs) / n] for a list of values of the type of the rates: [sum([])]
    is the int 0, so the division is then one of two Python ints. *)
Definition sum_div (xs : list F) (n : Z) : result F :=
  match xs with
  | [] => pydiv_int (of_Z 0) n
  | _ :: _ => fdiv_int (fsum xs) n
  end.

End RuntimeArithmetic.

(** *** calculations_year_by_year.py *)

Module YearByYearF.

(** The module-level constants (lines 4-30). *)
Record globals (F : Type) : Type := {
  GB : F;
  Fn : F;
  Fb : F;
  Fe : F;
  rn : F;
  rd : F;
  rr : F;
  year_GHG_neutrality : Z;
  Ae_initial : F
}.
Arguments GB {F} _.
Arguments Fn {F} _.
Arguments Fb {F} _.
Arguments Fe {F} _.
Arguments rn {F} _.
Arguments rd {F} _.
Arguments rr {F} _.
Arguments year_GHG_neutrality {F} _.
Arguments Ae_initial {F} _.

(** The local variables that the horizon loop updates. *)
Record locals (F : Type) : Type := {
  Ae_current : F;
  Ae_list : list F;
  Anew_list : list F;
  op_em_list : list F;
  emb_em_list : list F
}.
Arguments Ae_current {F} _.
Arguments Ae_list {F} _.
Arguments Anew_list {F} _.
Arguments op_em_list {F} _.
Arguments emb_em_list {F} _.

Section Globals.

Context {F : Type} {FL : Float F}.

Local Open Scope fl_scope.

Definition Ae_residential : F := of_Z (4024768000 - 127039000) * lit 1.87 * lit 0.83.
Definition Ae_nonresidential : F := of_Z 3073000000.

(** The values the file assigns. *)
Definition default : globals F := {|
  GB := div (of_Z (550 - 185)) (lit 0.887);
  Fn := lit 0.0106;
  Fb := lit 0.303;
  Fe := lit 0.3707;
  rn := lit 0.009;
  rd := lit 0.001;
  rr := lit 0.01;
  year_GHG_neutrality := 2045;
  Ae_initial := Ae_residential + Ae_nonresidential
|}.

Variable g : globals F.

Definition Fo : F := of_Z 1 - Fe g.

Definition years_pre : Z := 2025 - 2021.

(** One pass of the pre-correction loop (lines 48-52). *)
Definition pre_step (Ae_temp : F) : F :=
  let pre_An := rn g * Ae_temp in
  let pre_Ad := rd g * Ae_temp in
  Ae_temp + (pre_An - pre_Ad).

Definition Ae_2025 : F :=
  fold_left (fun Ae_temp _ => pre_step Ae_temp) (range 0 years_pre) (Ae_initial g).

Definition share_operational : F := GB g * Fn g * Fb g * Fo * lit 1e12.
Definition share_embodied : F := GB g * Fn g * Fb g * Fe g * lit 1e12.

(** The body of [for year in years] (lines 72-95); [50] is a nonzero
    literal. *)
Definition body (year : Z) (s : locals F) : result (locals F) :=
  let An := rn g * Ae_current s in
  let Ad := rd g * Ae_current s in
  let Ar := rr g * Ae_current s in
  let Ae_current' := Ae_current s + (An - Ad) in
  let A_new := An + Ar in
  q <- pydiv_int share_operational (year_GHG_neutrality g + 1 - 2025) ;;
  E_op <- pydiv q Ae_current' ;;
  q <- pydiv_int share_embodied (year_GHG_neutrality g + 1 - 2025) ;;
  q <- pydiv q A_new ;;
  let E_emb := div q (of_Z 50) in
  Ok {| Ae_current := Ae_current';
        Ae_list := Ae_list s ++ [Ae_current'];
        Anew_list := Anew_list s ++ [A_new];
        op_em_list := op_em_list s ++ [E_op];
        emb_em_list := emb_em_list s ++ [E_emb] |}.

Definition years : list Z := range 2025 (year_GHG_neutrality g + 1).

Definition initial_locals : locals F :=
  {| Ae_current := Ae_2025;
     Ae_list := []; Anew_list := []; op_em_list := []; emb_em_list := [] |}.

Definition calculate_emissions_year_by_year
  : result (list Z * list F * list F * list F * list F) :=
  s <- for_ years body initial_locals ;;
  Ok (years, Ae_list s, Anew_list s, op_em_list s, emb_em_list s).

End Globals.

End YearByYearF.

(** *** parallel coordinates.py *)

Module ParallelCoordinatesF.

Import YearByYearF.

Section Arguments_.

Context {F : Type} {FL : Float F}.

Local Open Scope fl_scope.

Definition Fb : F := lit 0.303.
Definition Fe : F := lit 0.3707.
Definition Fo : F := of_Z 1 - Fe.

Definition Ae_residential : F := of_Z (4024768000 - 127039000) * lit 1.87 * lit 0.83.
Definition Ae_nonresidential : F := of_Z 3073000000.
Definition Ae_initial : F := Ae_residential + Ae_nonresidential.

Variables (GB Fn : F) (year_GHG_neutrality : Z) (rn rr rd : F).

(** Lines 43-44; [0.887] is a nonzero literal. *)
Definition GB' : F := GB - of_Z 185.
Definition GB_GHG : F := div GB' (lit 0.887).

Definition years_pre : Z := 2025 - 2021.

Definition pre_step (Ae_temp : F) : F :=
  let pre_An := rn * Ae_temp in
  let pre_Ad := rd * Ae_temp in
  Ae_temp + (pre_An - pre_Ad).

Definition Ae_2025 : F :=
  fold_left (fun Ae_temp _ => pre_step Ae_temp) (range 0 years_pre) Ae_initial.

Definition years : list Z := range 2025 (year_GHG_neutrality + 1).

Definition share_operational : F := GB_GHG * Fn * Fb * Fo * lit 1e12.
Definition share_embodied : F := GB_GHG * Fn * Fb * Fe * lit 1e12.

(** The body of [for year in years] (lines 84-107).  The budgets over the
    horizon length are divisions of Python numbers; the divisions by the two
    areas are divisions by values of the type of the rates. *)
Definition body (year : Z) (s : locals F) : result (locals F) :=
  let An := rn * Ae_current s in
  let Ad := rd * Ae_current s in
  let Ar := rr * Ae_current s in
  let Ae_current' := Ae_current s + (An - Ad) in
  let A_new := An + Ar in
  q <- pydiv_int share_operational (year_GHG_neutrality + 1 - 2025) ;;
  E_op <- fdiv q Ae_current' ;;
  q <- pydiv_int share_embodied (year_GHG_neutrality + 1 - 2025) ;;
  q <- fdiv q A_new ;;
  let E_emb := div q (of_Z 50) in
  Ok {| Ae_current := Ae_current';
        Ae_list := Ae_list s ++ [Ae_current'];
        Anew_list := Anew_list s ++ [A_new];
        op_em_list := op_em_list s ++ [E_op];
        emb_em_list := emb_em_list s ++ [E_emb] |}.

Definition initial_locals : locals F :=
  {| Ae_current := Ae_2025;
     Ae_list := []; Anew_list := []; op_em_list := []; emb_em_list := [] |}.

(** The loop of lines 84-107, with the lists it has filled. *)
Definition horizon_loop : result (locals F) := for_ years body initial_locals.

Definition calculate_emissions : result (F * F) :=
  s <- horizon_loop ;;
  average_op_em <- sum_div (op_em_list s) (year_GHG_neutrality + 1 - 2025) ;;
  average_emb_em <- sum_div (emb_em_list s) (year_GHG_neutrality + 1 - 2025) ;;
  Ok (average_op_em, average_emb_em).

End Arguments_.

End ParallelCoordinatesF.

(** *** Vocabulary for the two files in the arithmetic of the runtime *)

Section StockFlow.

Context {F : Type} {FL : Float F}.

Local Open Scope fl_scope.

(** The yearly stock change as both loops compute it:
    [Ae_current += An - Ad] with [An = rn * Ae_current] and
    [Ad = rd * Ae_current]. *)
Definition stock_update (rn rd Ae_current : F) : F :=
  Ae_current + (rn * Ae_current - rd * Ae_current).

(** The newly added area of a year, [An + Ar], from the area before the
    year's update. *)
Definition newly_added (rn rr Ae_current : F) : F :=
  rn * Ae_current + rr * Ae_current.

(** The total areas and the newly added areas of [n] consecutive years, from
    the area before the first of them. *)
Fixpoint stock_series (rn rd rr : F) (n : nat) (Ae_current : F) : list (F * F) :=
  match n with
  | O => []
  | S n' =>
      (stock_update rn rd Ae_current, newly_added rn rr Ae_current)
        :: stock_series rn rd rr n' (stock_update rn rd Ae_current)
  end.

(** Some year of a series has a zero total area or a zero newly added area. *)
Definition zero_area (ev : list (F * F)) : bool :=
  existsb (fun p => is_zero (fst p) || is_zero (snd p)) ev.

(** The two intensities of a year, as lines 86 and 89 compute them. *)
Definition E_op_of (share_operational : F) (len : Z) (area : F) : F :=
  div (div share_operational (of_Z len)) area.

Definition E_emb_of (share_embodied : F) (len : Z) (new_active : F) : F :=
  div (div (div share_embodied (of_Z len)) new_active) (of_Z 50).

(** What a series records for the horizon year with index [y]: the total
    area is the stock update of the area before it (the area of the year
    before, or [Ae_2025] for the first year), the newly added area is
    [An + Ar] from that same area, the operational intensity is the budget
    divided by the horizon length and by the total area, the embodied one the
    budget divided by the horizon length, by the newly added area and by 50;
    the horizon length is nonzero and, where the division raises, so are the
    two areas. *)
Definition year_record (raises : bool) (share_operational share_embodied : F)
  (len : Z) (rn rd rr : F) (Ae_2025 : F) (Ae Anew op_em emb_em : list F) (y : nat)
  : Prop :=
  exists prev area new_active : F,
    nth_error (Ae_2025 :: Ae) y = Some prev /\
    area = stock_update rn rd prev /\
    new_active = newly_added rn rr prev /\
    nth_error Ae y = Some area /\
    nth_error Anew y = Some new_active /\
    len <> 0%Z /\
    (raises = true -> is_zero area = false /\ is_zero new_active = false) /\
    nth_error op_em y = Some (E_op_of share_operational len area) /\
    nth_error emb_em y = Some (E_emb_of share_embodied len new_active).

End StockFlow.

(** *** Binary64 values as exact rationals *)

(** The rational that a finite binary64 value denotes. *)
Definition float_to_Q (x : float) : option Q :=
  match Prim2SF x with
  | S754_zero _ => Some 0%Q
  | S754_finite s m e =>
      let v := Qred (inject_Z (Z.pos m) * Qpower 2 e) in
      Some (if s then Qopp v else v)
  | S754_infinity _ => None
  | S754_nan => None
  end.

(** [x] is finite and within the relative tolerance [tol] of the rational
    [y]. *)
Definition float_within (tol : Q) (x : float) (y : Q) : bool :=
  match float_to_Q x with
  | Some q => Qle_bool (Qabs (q - y)) (tol * Qabs y)
  | None => false
  end.

(** The unrounded stock change [area + rn*area - rd*area] of a binary64 area
    and binary64 rates. *)
Definition exact_stock_change (rn rd area : float) : option Q :=
  match float_to_Q rn, float_to_Q rd, float_to_Q area with
  | Some n, Some d, Some a => Some (Qred (a + n * a - d * a))
  | _, _, _ => None
  end.

(** Every area of the list is within [tol] of the unrounded stock change of
    the area before it. *)
Fixpoint recurrence_within (tol : Q) (rn rd : float) (prev : float) (areas : list float)
  : bool :=
  match areas with
  | [] => true
  | a :: rest =>
      match exact_stock_change rn rd prev with
      | Some c => float_within tol a c && recurrence_within tol rn rd a rest
      | None => false
      end
  end.


(** ** Scenarios in binary64 *)

Module Scenario64.

Import YearByYearF.

(** The constants of calculations_year_by_year.py as Python floats. *)
Definition default64 : globals float := default (FL := python_binary64).

(** The constants [g] with other rates of new construction and demolition. *)
Definition with_rates (g : globals float) (rn' rd' : float) : globals float :=
  {| GB := GB g; Fn := Fn g; Fb := Fb g; Fe := Fe g;
     rn := rn'; rd := rd'; rr := rr g;
     year_GHG_neutrality := year_GHG_neutrality g;
     Ae_initial := Ae_initial g |}.

(** A new-construction rate of 1e-10 and a demolition rate of 1: the stock
    change [area + rn*area - rd*area] is a difference of nearly equal
    numbers. *)
Definition cancelling_rates : globals float := with_rates default64 1e-10%float 1%float.



End Scenario64.

Import Scenario64.



(** ** Vocabulary for the curve solver *)

Section SolverVocabulary.

#[local] Existing Instance python_exact.

Variables (x_base : Qc) (Z_ : Qc -> Qc) (factor : Qc).
Variable quad : (Qc -> Qc) -> Qc -> Qc -> Qc.



End SolverVocabulary.

(** ** The exact model as an instance of the runtime model *)

(** The constants of calculations_year_by_year.py in exact arithmetic, as
    constants of the model over [Float]. *)
Definition runtime_globals (g : YearByYear.globals) : YearByYearF.globals Qc :=
  {| YearByYearF.GB := YearByYear.GB g;
     YearByYearF.Fn := YearByYear.Fn g;
     YearByYearF.Fb := YearByYear.Fb g;
     YearByYearF.Fe := YearByYear.Fe g;
     YearByYearF.rn := YearByYear.rn g;
     YearByYearF.rd := YearByYear.rd g;
     YearByYearF.rr := YearByYear.rr g;
     YearByYearF.year_GHG_neutrality := YearByYear.year_GHG_neutrality g;
     YearByYearF.Ae_initial := YearByYear.Ae_initial g |}.

(** ** Vocabulary for the further properties *)

(** An initial area and rates in a range where binary64 arithmetic stays far
    from overflow, underflow and cancellation: an area between 1 and 1e15,
    new-construction and demolition rates between 0 and 0.5, a renovation
    rate between 0 and 1, [rn + rr] at least 1e-9, and a neutrality year up
    to 2225. *)
Definition moderate_stock (Ae_initial rn rd rr : Qc) (year_GHG_neutrality : Z) : Prop :=
  (1 <= Ae_initial /\ Ae_initial <= dec 1e15) /\
  (0 <= rn /\ rn <= dec 0.5) /\ (0 <= rd /\ rd <= dec 0.5) /\
  (0 <= rr /\ rr <= 1) /\ dec 0.000000001 <= rn + rr /\
  (year_GHG_neutrality <= 2225)%Z.

(** Every value of the list is below (above) the value after it. *)
Fixpoint increasing (xs : list float) : bool :=
  match xs with
  | a :: (b :: _) as rest => PrimFloat.ltb a b && increasing rest
  | _ => true
  end.

Fixpoint decreasing (xs : list float) : bool :=
  match xs with
  | a :: (b :: _) as rest => PrimFloat.ltb b a && decreasing rest
  | _ => true
  end.

(** The exact sum of the products [x * y * k] of two lists of finite binary64
    values. *)
Fixpoint exact_dot (k : Q) (xs ys : list float) : option Q :=
  match xs, ys with
  | x :: xs', y :: ys' =>
      match float_to_Q x, float_to_Q y, exact_dot k xs' ys' with
      | Some p, Some q, Some r => Some (Qred (p * q * k + r))
      | _, _, _ => None
      end
  | _, _ => Some 0%Q
  end.

(** The rational [x] is within the relative tolerance [tol] of the finite
    binary64 value [y]. *)
Definition exact_within (tol : Q) (x : option Q) (y : float) : bool :=
  match x, float_to_Q y with
  | Some p, Some q => Qle_bool (Qabs (p - q)) (tol * Qabs q)
  | _, _ => false
  end.

(** * Properties *)

(** ** Facts about the runtime *)

Lemma Qc_eq_bool_true (x y : Qc) : Qc_eq_bool x y = true <-> x = y.
Proof.
  unfold Qc_eq_bool. destruct (Qc_eq_dec x y); split; auto; discriminate.
Qed.

Lemma Qc_eq_bool_false (x y : Qc) : Qc_eq_bool x y = false <-> x <> y.
Proof.
  unfold Qc_eq_bool. destruct (Qc_eq_dec x y); split; auto; try discriminate.
  intros H; contradiction.
Qed.

Lemma is_ok_not_raise {A : Type} (m : result A) (e : exn) :
  is_ok m = true -> m = Raise e -> False.
Proof. intros H E. rewrite E in H. discriminate H. Qed.

Lemma Qclt_bool_true (x y : Qc) : Qclt_bool x y = true -> x < y.
Proof.
  unfold Qclt_bool, Qclt. intros H. apply negb_true_iff in H.
  apply Qnot_le_lt. intros Hle. apply Qle_bool_iff in Hle. congruence.
Qed.

Lemma truediv_nonzero (x y : Qc) : y <> 0 -> truediv x y = Ok (x / y).
Proof.
  intros H. unfold truediv. apply Qc_eq_bool_false in H. now rewrite H.
Qed.

Lemma truediv_zero (x y : Qc) : y = 0 -> truediv x y = Raise ZeroDivisionError.
Proof.
  intros H. unfold truediv. apply Qc_eq_bool_true in H. now rewrite H.
Qed.

Lemma of_int_nonzero (z : Z) : z <> 0%Z -> of_int z <> 0.
Proof.
  intros Hz H. unfold of_int in H. apply Q2Qc_eq_iff in H.
  unfold Qeq in H. simpl in H. lia.
Qed.

Lemma range_length (lo hi : Z) : length (range lo hi) = Z.to_nat (hi - lo).
Proof. unfold range. now rewrite length_map, length_seq. Qed.

Lemma range_nil (lo hi : Z) : (hi <= lo)%Z -> range lo hi = [].
Proof.
  intros H. unfold range. replace (Z.to_nat (hi - lo)) with O by lia. reflexivity.
Qed.

Lemma last_cons {A : Type} (l : list A) (x d : A) : last (x :: l) d = last l x.
Proof.
  revert x d. induction l as [|y l IH]; intros x d; [reflexivity|].
  change (last (x :: y :: l) d) with (last (y :: l) d). now rewrite !IH.
Qed.

(** ** The horizon loop of calculations_year_by_year.py *)

Section YearByYearLoop.

Import YearByYear.
Variable g : globals.

Let E_op (p : Qc * Qc) : Qc := share_operational g / horizon_length g / fst p.
Let E_emb (p : Qc * Qc) : Qc :=
  share_embodied g / horizon_length g / snd p / of_int 50.

Lemma body_spec (year : Z) (s : locals) :
  horizon_length g <> 0 ->
  body g year s =
    let Ae' := Ae_current s + (rn g * Ae_current s - rd g * Ae_current s) in
    let A_new := rn g * Ae_current s + rr g * Ae_current s in
    if nonzero_areas [(Ae', A_new)]
    then Ok {| Ae_current := Ae';
               Ae_list := Ae_list s ++ [Ae'];
               Anew_list := Anew_list s ++ [A_new];
               op_em_list := op_em_list s ++ [E_op (Ae', A_new)];
               emb_em_list := emb_em_list s ++ [E_emb (Ae', A_new)] |}
    else Raise ZeroDivisionError.
Proof.
  intros Hlen. unfold body, nonzero_areas, E_op, E_emb. cbn [forallb fst snd].
  rewrite (truediv_nonzero _ _ Hlen). cbn [bind].
  unfold truediv at 1.
  destruct (Qc_eq_bool (Ae_current s + (rn g * Ae_current s - rd g * Ae_current s)) 0);
    cbn [bind negb andb]; [reflexivity|].
  rewrite (truediv_nonzero _ _ Hlen). cbn [bind].
  unfold truediv at 1.
  destruct (Qc_eq_bool (rn g * Ae_current s + rr g * Ae_current s) 0);
    cbn [bind negb andb]; [reflexivity|].
  rewrite truediv_nonzero by (apply of_int_nonzero; discriminate).
  reflexivity.
Qed.

Lemma loop_spec (ys : list Z) :
  horizon_length g <> 0 ->
  forall s : locals,
  let ev := area_evolution_from g (length ys) (Ae_current s) in
  for_ ys (body g) s =
    if nonzero_areas ev
    then Ok {| Ae_current := last (map fst ev) (Ae_current s);
               Ae_list := Ae_list s ++ map fst ev;
               Anew_list := Anew_list s ++ map snd ev;
               op_em_list := op_em_list s ++ map E_op ev;
               emb_em_list := emb_em_list s ++ map E_emb ev |}
    else Raise ZeroDivisionError.
Proof.
  intros Hlen. induction ys as [|y ys IH]; intros s.
  - cbn. rewrite !app_nil_r. now destruct s.
  - cbn [for_ length area_evolution_from]. rewrite (body_spec y s Hlen).
    cbv zeta. 
    set (Ae' := Ae_current s + (rn g * Ae_current s - rd g * Ae_current s)).
    set (A_new := rn g * Ae_current s + rr g * Ae_current s).
    unfold nonzero_areas. cbn [forallb fst snd]. rewrite andb_true_r.
    destruct (negb (Qc_eq_bool Ae' 0) && negb (Qc_eq_bool A_new 0)) eqn:Hnz;
      cbn [bind andb]; [|reflexivity].
    rewrite IH. cbn [Ae_current Ae_list Anew_list op_em_list emb_em_list].
    fold (nonzero_areas (area_evolution_from g (length ys) Ae')).
    destruct (nonzero_areas (area_evolution_from g (length ys) Ae')); [|reflexivity].
    cbn [map fst snd]. rewrite <- !app_assoc. cbn [app].
    now rewrite last_cons.
Qed.

Lemma years_empty_or_length :
  years g = [] \/ horizon_length g <> 0.
Proof.
  destruct (Z_le_gt_dec (year_GHG_neutrality g + 1) 2025) as [H|H].
  - left. now apply range_nil.
  - right. apply of_int_nonzero. lia.
Qed.

Lemma calculate_emissions_year_by_year_spec :
  calculate_emissions_year_by_year g =
    let ev := area_evolution g in
    if nonzero_areas ev
    then Ok (years g, map fst ev, map snd ev, map E_op ev, map E_emb ev)
    else Raise ZeroDivisionError.
Proof.
  unfold calculate_emissions_year_by_year, area_evolution.
  destruct years_empty_or_length as [H|H].
  - rewrite H. reflexivity.
  - rewrite (loop_spec _ H). cbn [initial_locals Ae_current Ae_list Anew_list op_em_list emb_em_list app].
    cbv zeta. destruct (nonzero_areas _); reflexivity.
Qed.

End YearByYearLoop.

(** ** The area series *)

Section AreaSeries.

Import YearByYear.
Variable g : globals.

Lemma area_evolution_from_length (n : nat) (A : Qc) :
  length (area_evolution_from g n A) = n.
Proof.
  revert A. induction n as [|n IH]; intros A; cbn; [reflexivity|now rewrite IH].
Qed.




End AreaSeries.

Lemma series_lengths
  (g : YearByYear.globals) (ys : list Z) (Ae Anew op_em emb_em : list Qc) :
  YearByYear.calculate_emissions_year_by_year g = Ok (ys, Ae, Anew, op_em, emb_em) ->
  let n := Z.to_nat (YearByYear.year_GHG_neutrality g - 2024) in
  length Ae = n /\ length Anew = n /\ length op_em = n /\ length emb_em = n.
Proof.
  intros H n. rewrite calculate_emissions_year_by_year_spec in H.
  cbv zeta in H.
  destruct (nonzero_areas (YearByYear.area_evolution g)); [|discriminate].
  injection H as _ <- <- <- <-. unfold YearByYear.area_evolution.
  rewrite !length_map, area_evolution_from_length. unfold YearByYear.years.
  rewrite range_length. subst n.
  replace (YearByYear.year_GHG_neutrality g + 1 - 2025)%Z
    with (YearByYear.year_GHG_neutrality g - 2024)%Z by lia.
  repeat split.
Qed.

(** ** The horizon loop in the arithmetic of the runtime *)

Section FloatLoop.

Import YearByYearF.

Context {F : Type} {FL : Float F}.

Variables (raises : bool) (share_op share_emb : F) (len : Z) (rn rd rr : F).

Lemma stock_series_length (n : nat) (A : F) :
  length (stock_series rn rd rr n A) = n.
Proof.
  revert A. induction n as [|n IH]; intros A; cbn; [reflexivity|now rewrite IH].
Qed.

Lemma stock_series_nth (n : nat) (A : F) (y : nat) :
  (y < n)%nat ->
  exists prev : F,
    nth_error (A :: map fst (stock_series rn rd rr n A)) y = Some prev /\
    nth_error (stock_series rn rd rr n A) y
      = Some (stock_update rn rd prev, newly_added rn rr prev).
Proof.
  revert A y. induction n as [|n IH]; intros A y Hy; [lia|].
  destruct y as [|y].
  - exists A. split; reflexivity.
  - destruct (IH (stock_update rn rd A) y) as (prev & H1 & H2); [lia|].
    exists prev. split; [exact H1|exact H2].
Qed.

Lemma zero_area_false (ev : list (F * F)) (y : nat) (area new_active : F) :
  zero_area ev = false -> nth_error ev y = Some (area, new_active) ->
  is_zero area = false /\ is_zero new_active = false.
Proof.
  revert y. induction ev as [|p ev IH]; intros y H Hy; [destruct y; discriminate|].
  cbn [zero_area existsb] in H. apply orb_false_iff in H. destruct H as [H1 H2].
  destruct y as [|y].
  - injection Hy as ->. cbn [fst snd] in H1. now apply orb_false_iff in H1.
  - exact (IH y H2 Hy).
Qed.

Lemma zero_area_true (ev : list (F * F)) :
  zero_area ev = true <->
  exists (y : nat) (area new_active : F),
    nth_error ev y = Some (area, new_active) /\
    (is_zero area = true \/ is_zero new_active = true).
Proof.
  induction ev as [|[a n] ev IH]; cbn [zero_area existsb fst snd].
  - split; [discriminate|]. intros (y & a & n & H & _). destruct y; discriminate.
  - fold (zero_area ev). split.
    + intros H. apply orb_true_iff in H. destruct H as [H|H].
      * exists O, a, n. split; [reflexivity|]. now apply orb_true_iff in H.
      * apply IH in H. destruct H as (y & a' & n' & H & H0).
        exists (S y), a', n'. now split.
    + intros (y & a' & n' & H & H0). apply orb_true_iff. destruct y as [|y].
      * injection H as -> ->. left. now apply orb_true_iff.
      * right. apply IH. now exists y, a', n'.
Qed.

(** A loop whose body is the body of the two files, for either division. *)
Variable body : Z -> locals F -> result (locals F).

Hypothesis body_eq : forall (year : Z) (s : locals F),
  body year s =
    let Ae' := stock_update rn rd (Ae_current s) in
    let A_new := newly_added rn rr (Ae_current s) in
    if raises && (is_zero Ae' || is_zero A_new) then Raise ZeroDivisionError
    else Ok {| Ae_current := Ae';
               Ae_list := Ae_list s ++ [Ae'];
               Anew_list := Anew_list s ++ [A_new];
               op_em_list := op_em_list s ++ [E_op_of share_op len Ae'];
               emb_em_list := emb_em_list s ++ [E_emb_of share_emb len A_new] |}.

Lemma loop_series (ys : list Z) :
  forall s : locals F,
  let ev := stock_series rn rd rr (length ys) (Ae_current s) in
  for_ ys body s =
    if raises && zero_area ev then Raise ZeroDivisionError
    else Ok {| Ae_current := last (map fst ev) (Ae_current s);
               Ae_list := Ae_list s ++ map fst ev;
               Anew_list := Anew_list s ++ map snd ev;
               op_em_list :=
                 op_em_list s ++ map (fun p => E_op_of share_op len (fst p)) ev;
               emb_em_list :=
                 emb_em_list s ++ map (fun p => E_emb_of share_emb len (snd p)) ev |}.
Proof.
  induction ys as [|y ys IH]; intros s.
  - cbn. rewrite andb_false_r, !app_nil_r. now destruct s.
  - cbn [for_ length stock_series]. rewrite body_eq. cbv zeta.
    set (Ae' := stock_update rn rd (Ae_current s)).
    set (A_new := newly_added rn rr (Ae_current s)).
    cbn [zero_area existsb fst snd].
    fold (zero_area (stock_series rn rd rr (length ys) Ae')).
    destruct (raises && (is_zero Ae' || is_zero A_new)) eqn:Hz.
    + apply andb_true_iff in Hz. destruct Hz as [-> ->]. reflexivity.
    + cbn [bind]. rewrite IH.
      cbn [Ae_current Ae_list Anew_list op_em_list emb_em_list].
      replace (raises && (is_zero Ae' || is_zero A_new
                          || zero_area (stock_series rn rd rr (length ys) Ae')))
        with (raises && zero_area (stock_series rn rd rr (length ys) Ae')).
      * destruct (raises && zero_area _); [reflexivity|].
        cbn [map fst snd]. rewrite <- !app_assoc. cbn [app].
        now rewrite last_cons.
      * destruct raises; [|reflexivity]. cbn [andb] in Hz |- *.
        now rewrite Hz.
Qed.

(** What the lists of a finished loop record for each year. *)
Lemma series_year_record (n : nat) (A : F) (y : nat) :
  let ev := stock_series rn rd rr n A in
  len <> 0%Z -> (raises = true -> zero_area ev = false) -> (y < n)%nat ->
  year_record raises share_op share_emb len rn rd rr A
    (map fst ev) (map snd ev)
    (map (fun p => E_op_of share_op len (fst p)) ev)
    (map (fun p => E_emb_of share_emb len (snd p)) ev) y.
Proof.
  intros ev Hlen Hz Hy.
  destruct (stock_series_nth n A y Hy) as (prev & H1 & H2). fold ev in H1, H2.
  exists prev, (stock_update rn rd prev), (newly_added rn rr prev).
  split; [exact H1|]. split; [reflexivity|]. split; [reflexivity|].
  rewrite !nth_error_map, H2. cbn [option_map fst snd].
  split; [reflexivity|]. split; [reflexivity|]. split; [exact Hlen|].
  split; [|split; reflexivity].
  intros Hr. exact (zero_area_false ev y _ _ (Hz Hr) H2).
Qed.

End FloatLoop.

(** *** calculations_year_by_year.py *)

Section YearByYearFloat.

Import YearByYearF.

Context {F : Type} {FL : Float F}.
Variable g : globals F.

Let len : Z := (year_GHG_neutrality g + 1 - 2025)%Z.

Lemma body_float (year : Z) (s : locals F) :
  len <> 0%Z ->
  body g year s =
    let Ae' := stock_update (rn g) (rd g) (Ae_current s) in
    let A_new := newly_added (rn g) (rr g) (Ae_current s) in
    if true && (is_zero Ae' || is_zero A_new) then Raise ZeroDivisionError
    else Ok {| Ae_current := Ae';
               Ae_list := Ae_list s ++ [Ae'];
               Anew_list := Anew_list s ++ [A_new];
               op_em_list := op_em_list s ++ [E_op_of (share_operational g) len Ae'];
               emb_em_list := emb_em_list s ++ [E_emb_of (share_embodied g) len A_new] |}.
Proof.
  intros Hlen. apply Z.eqb_neq in Hlen.
  unfold body, pydiv_int, pydiv. fold len. rewrite Hlen. cbn [bind andb].
  cbv zeta. fold (stock_update (rn g) (rd g) (Ae_current s)).
  fold (newly_added (rn g) (rr g) (Ae_current s)).
  destruct (is_zero (stock_update (rn g) (rd g) (Ae_current s)));
    cbn [bind orb]; [reflexivity|].
  destruct (is_zero (newly_added (rn g) (rr g) (Ae_current s)));
    cbn [bind]; reflexivity.
Qed.

Lemma years_float_length : length (years g) = Z.to_nat (year_GHG_neutrality g - 2024).
Proof. unfold years. rewrite range_length. f_equal. lia. Qed.

Lemma years_float_empty_or_len : years g = [] \/ len <> 0%Z.
Proof.
  destruct (Z_le_gt_dec (year_GHG_neutrality g + 1) 2025) as [H|H].
  - left. now apply range_nil.
  - right. unfold len. lia.
Qed.

(** The function returns the series of the areas and of the intensities
    computed from them, unless the total or the newly added area of some year
    is zero. *)
Lemma calculate_emissions_year_by_year_series :
  calculate_emissions_year_by_year g =
    let ev := stock_series (rn g) (rd g) (rr g) (length (years g)) (Ae_2025 g) in
    if zero_area ev then Raise ZeroDivisionError
    else Ok (years g, map fst ev, map snd ev,
             map (fun p => E_op_of (share_operational g) len (fst p)) ev,
             map (fun p => E_emb_of (share_embodied g) len (snd p)) ev).
Proof.
  unfold calculate_emissions_year_by_year.
  destruct years_float_empty_or_len as [H|H].
  - rewrite H. reflexivity.
  - rewrite (loop_series true (share_operational g) (share_embodied g) len
               (rn g) (rd g) (rr g) (body g) (fun year s => body_float year s H)).
    cbn [initial_locals Ae_current Ae_list Anew_list op_em_list emb_em_list app andb].
    cbv zeta. destruct (zero_area _); reflexivity.
Qed.

Lemma Ae_2025_float :
  Ae_2025 g
  = stock_update (rn g) (rd g) (stock_update (rn g) (rd g)
      (stock_update (rn g) (rd g) (stock_update (rn g) (rd g) (Ae_initial g)))).
Proof. reflexivity. Qed.

End YearByYearFloat.

(** *** parallel coordinates.py *)

Section ParallelCoordinatesFloat.

Import YearByYearF.

Context {F : Type} {FL : Float F}.
Variables (GB Fn : F) (yn : Z) (rn rr rd : F).

Let len : Z := (yn + 1 - 2025)%Z.
Let ev : list (F * F) :=
  stock_series rn rd rr (length (ParallelCoordinatesF.years yn))
    (ParallelCoordinatesF.Ae_2025 rn rd).
Let share_op : F := ParallelCoordinatesF.share_operational GB Fn.
Let share_emb : F := ParallelCoordinatesF.share_embodied GB Fn.

Lemma body_call (year : Z) (s : locals F) :
  len <> 0%Z ->
  ParallelCoordinatesF.body GB Fn yn rn rr rd year s =
    let Ae' := stock_update rn rd (Ae_current s) in
    let A_new := newly_added rn rr (Ae_current s) in
    if zero_division_raises && (is_zero Ae' || is_zero A_new)
    then Raise ZeroDivisionError
    else Ok {| Ae_current := Ae';
               Ae_list := Ae_list s ++ [Ae'];
               Anew_list := Anew_list s ++ [A_new];
               op_em_list := op_em_list s ++ [E_op_of share_op len Ae'];
               emb_em_list := emb_em_list s ++ [E_emb_of share_emb len A_new] |}.
Proof.
  intros Hlen. apply Z.eqb_neq in Hlen.
  unfold ParallelCoordinatesF.body, pydiv_int, fdiv. fold len. rewrite Hlen.
  cbn [bind]. cbv zeta. fold (stock_update rn rd (Ae_current s)).
  fold (newly_added rn rr (Ae_current s)).
  destruct zero_division_raises; cbn [andb bind]; [|reflexivity].
  destruct (is_zero (stock_update rn rd (Ae_current s)));
    cbn [bind orb]; [reflexivity|].
  destruct (is_zero (newly_added rn rr (Ae_current s))); cbn [bind]; reflexivity.
Qed.

Lemma years_call_length :
  length (ParallelCoordinatesF.years yn) = Z.to_nat (yn - 2024).
Proof. unfold ParallelCoordinatesF.years. rewrite range_length. f_equal. lia. Qed.

Lemma horizon_loop_series :
  len <> 0%Z ->
  ParallelCoordinatesF.horizon_loop GB Fn yn rn rr rd =
    if zero_division_raises && zero_area ev then Raise ZeroDivisionError
    else Ok {| Ae_current := last (map fst ev) (ParallelCoordinatesF.Ae_2025 rn rd);
               Ae_list := map fst ev;
               Anew_list := map snd ev;
               op_em_list := map (fun p => E_op_of share_op len (fst p)) ev;
               emb_em_list := map (fun p => E_emb_of share_emb len (snd p)) ev |}.
Proof.
  intros H. unfold ParallelCoordinatesF.horizon_loop.
  rewrite (loop_series zero_division_raises share_op share_emb len rn rd rr
             (ParallelCoordinatesF.body GB Fn yn rn rr rd)
             (fun year s => body_call year s H)).
  reflexivity.
Qed.

Lemma sum_div_nonzero (xs : list F) :
  len <> 0%Z -> sum_div xs len = Ok (div (fsum xs) (of_Z len)).
Proof.
  intros H. apply Z.eqb_neq in H.
  destruct xs; cbn [sum_div]; unfold pydiv_int, fdiv_int; rewrite H;
    [reflexivity|]. now rewrite andb_false_r.
Qed.

(** The outcome of a call: the division by a horizon of length zero raises;
    otherwise a zero area raises where the division of the rates' type does;
    otherwise the two averages are returned. *)
Lemma calculate_emissions_outcome :
  ParallelCoordinatesF.calculate_emissions GB Fn yn rn rr rd =
    if (len =? 0)%Z then Raise ZeroDivisionError
    else if zero_division_raises && zero_area ev then Raise ZeroDivisionError
    else Ok (div (fsum (map (fun p => E_op_of share_op len (fst p)) ev)) (of_Z len),
             div (fsum (map (fun p => E_emb_of share_emb len (snd p)) ev)) (of_Z len)).
Proof.
  unfold ParallelCoordinatesF.calculate_emissions.
  destruct (len =? 0)%Z eqn:Hlen.
  - apply Z.eqb_eq in Hlen. unfold ParallelCoordinatesF.horizon_loop.
    assert (Hy : ParallelCoordinatesF.years yn = []).
    { apply range_nil. unfold len in Hlen. lia. }
    rewrite Hy. cbn [for_ bind ParallelCoordinatesF.initial_locals op_em_list sum_div].
    unfold pydiv_int. fold len. rewrite Hlen. reflexivity.
  - apply Z.eqb_neq in Hlen. rewrite (horizon_loop_series Hlen).
    destruct (zero_division_raises && zero_area ev); [reflexivity|].
    cbn [bind op_em_list emb_em_list]. fold len.
    rewrite !(sum_div_nonzero _ Hlen). reflexivity.
Qed.

End ParallelCoordinatesFloat.

(** *** The literals of the two files in binary64 *)

(** [lit] gives the binary64 value of each decimal literal of the two
    files. *)
Lemma literals_in_binary64 :
  lit (FL := python_binary64) 0.887 = 0.887%float /\
  lit (FL := python_binary64) 0.0106 = 0.0106%float /\
  lit (FL := python_binary64) 0.303 = 0.303%float /\
  lit (FL := python_binary64) 0.3707 = 0.3707%float /\
  lit (FL := python_binary64) 0.009 = 0.009%float /\
  lit (FL := python_binary64) 0.001 = 0.001%float /\
  lit (FL := python_binary64) 0.01 = 0.01%float /\
  lit (FL := python_binary64) 1.87 = 1.87%float /\
  lit (FL := python_binary64) 0.83 = 0.83%float /\
  lit (FL := python_binary64) 1e12 = 1e12%float.
Proof. repeat split. Qed.

(** ** Comparisons of concrete numbers *)

Ltac qc_compare :=
  unfold within, Qcle, Qclt; vm_compute; first [reflexivity | intro; discriminate].

Lemma within_refl (tol x : Qc) : 0 <= tol -> within tol x x.
Proof.
  intros Htol. unfold within.
  replace (x - x) with 0 by ring.
  rewrite (Qcabs_pos 0) by apply Qcle_refl.
  rewrite <- (Qcmult_0_l (Qcabs x)).
  apply Qcmult_le_compat_r; [assumption|apply Qcabs_nonneg].
Qed.

(** ** Order on exact floats *)

Ltac qc2q :=
  unfold dec, Qclt, Qcle, Qcdiv, Qcinv, Qcminus, Qcopp, Qcplus, Qcmult, Q2Qc in *;
  cbn [this] in *; rewrite ?Qred_correct in *.

Lemma Qcmult_pos (x y : Qc) : 0 < x -> 0 < y -> 0 < x * y.
Proof. intros Hx Hy. qc2q. nra. Qed.

Lemma Qcplus_pos (x y : Qc) : 0 < x -> 0 < y -> 0 < x + y.
Proof. intros Hx Hy. qc2q. lra. Qed.

Lemma Qcdiv_pos (x y : Qc) : 0 < x -> 0 < y -> 0 < x / y.
Proof.
  intros Hx Hy. qc2q. apply Qmult_lt_0_compat; [assumption|].
  now apply Qinv_lt_0_compat.
Qed.

Lemma Qclt_nonzero (x : Qc) : 0 < x -> x <> 0.
Proof. intros H E. rewrite E in H. apply (Qclt_not_le _ _ H), Qcle_refl. Qed.

Lemma of_int_1 : of_int 1 = 1.
Proof. apply Qc_is_canon. reflexivity. Qed.

Lemma of_int_pos (z : Z) : (0 < z)%Z -> 0 < of_int z.
Proof. intros H. unfold of_int. qc2q. unfold Qlt. cbn. lia. Qed.


(** ** The claims on the yearly series, in the arithmetic of the runtime *)

Section SeriesClaims.

Import YearByYearF.

Lemma series_of_call {F : Type} {FL : Float F}
  (g : globals F) (ys : list Z) (Ae Anew op_em emb_em : list F) :
  calculate_emissions_year_by_year g = Ok (ys, Ae, Anew, op_em, emb_em) ->
  let ev := stock_series (rn g) (rd g) (rr g)
              (Z.to_nat (year_GHG_neutrality g - 2024)) (Ae_2025 g) in
  let len := (year_GHG_neutrality g + 1 - 2025)%Z in
  zero_area ev = false /\
  ys = range 2025 (year_GHG_neutrality g + 1) /\
  Ae = map fst ev /\ Anew = map snd ev /\
  op_em = map (fun p => E_op_of (share_operational g) len (fst p)) ev /\
  emb_em = map (fun p => E_emb_of (share_embodied g) len (snd p)) ev.
Proof.
  intros H. rewrite calculate_emissions_year_by_year_series in H.
  cbv zeta in H. rewrite years_float_length in H. cbv zeta.
  destruct (zero_area _); [discriminate H|].
  injection H as <- <- <- <- <-. repeat split.
Qed.

Lemma series_lengths_float {F : Type} {FL : Float F}
  (g : globals F) (ys : list Z) (Ae Anew op_em emb_em : list F) :
  calculate_emissions_year_by_year g = Ok (ys, Ae, Anew, op_em, emb_em) ->
  let n := Z.to_nat (year_GHG_neutrality g - 2024) in
  ys = range 2025 (year_GHG_neutrality g + 1) /\
  length Ae = n /\ length Anew = n /\ length op_em = n /\ length emb_em = n.
Proof.
  intros H n.
  destruct (series_of_call g ys Ae Anew op_em emb_em H)
    as (_ & Hys & HAe & HAnew & Hop & Hemb).
  subst ys Ae Anew op_em emb_em.
  rewrite !length_map, stock_series_length. repeat split.
Qed.

(** C2, as the code has it.  In every series that
    [calculate_emissions_year_by_year] returns, in exact arithmetic and in
    binary64 alike, the years are 2025 to [year_GHG_neutrality], there is one
    total area per year, and each total area is the stock update
    [area + (rn*area - rd*area)] of the area before it, with the operations
    of the arithmetic in the order of the code; the area before the first
    year is [Ae_2025], four stock updates of [Ae_initial], so the first
    recorded area is the updated one.  For the constants of the file in
    binary64 each of the 21 recorded areas is within 1e-9 relative of the
    unrounded [area + rn*area - rd*area]. *)
Theorem area_sequence_recurrence :
  (forall (F : Type) (FL : Float F) (g : globals F)
          (ys : list Z) (Ae Anew op_em emb_em : list F),
     calculate_emissions_year_by_year g = Ok (ys, Ae, Anew, op_em, emb_em) ->
     let n := Z.to_nat (year_GHG_neutrality g - 2024) in
     let update := stock_update (rn g) (rd g) in
     ys = range 2025 (year_GHG_neutrality g + 1) /\
     length ys = n /\ length Ae = n /\
     Ae_2025 g = update (update (update (update (Ae_initial g)))) /\
     forall y : nat, (y < n)%nat ->
       exists prev area : F,
         nth_error (Ae_2025 g :: Ae) y = Some prev /\
         nth_error Ae y = Some area /\
         area = update prev) /\
  match calculate_emissions_year_by_year (FL := python_binary64) default64 with
  | Ok (_, Ae, _, _, _) =>
      length Ae = 21%nat /\
      recurrence_within 1e-9 (rn default64) (rd default64)
        (Ae_2025 (FL := python_binary64) default64) Ae = true
  | Raise _ => False
  end.
Proof.
  split.
  - intros F FL g ys Ae Anew op_em emb_em H n update.
    destruct (series_of_call g ys Ae Anew op_em emb_em H)
      as (_ & Hys & HAe & _ & _ & _).
    fold n in HAe. subst ys Ae. split; [reflexivity|].
    rewrite range_length, length_map, stock_series_length.
    split; [unfold n; f_equal; lia|]. split; [reflexivity|].
    split; [apply Ae_2025_float|].
    intros y Hy.
    destruct (stock_series_nth (rn g) (rd g) (rr g) n (Ae_2025 g) y Hy)
      as (prev & H1 & H2).
    exists prev, (update prev). split; [exact H1|]. split; [|reflexivity].
    rewrite nth_error_map, H2. reflexivity.
  - assert (Hchk : match calculate_emissions_year_by_year (FL := python_binary64) default64 with
                   | Ok (_, Ae, _, _, _) =>
                       Nat.eqb (length Ae) 21
                       && recurrence_within 1e-9 (rn default64) (rd default64)
                            (Ae_2025 (FL := python_binary64) default64) Ae
                   | Raise _ => false
                   end = true) by (vm_compute; reflexivity).
    destruct (calculate_emissions_year_by_year default64)
      as [[[[[ys Ae] Anew] op_em] emb_em]|e]; [|discriminate Hchk].
    apply andb_true_iff in Hchk. destruct Hchk as [Hl Hr].
    apply Nat.eqb_eq in Hl. split; assumption.
Qed.

Lemma area_sequence_recurrence_default :
  match calculate_emissions_year_by_year (FL := python_binary64) default64 with
  | Ok (ys, Ae, _, _, _) =>
      ys = range 2025 2046 /\ length Ae = 21%nat /\
      forall y : nat, (y < 21)%nat ->
        exists prev area : float,
          nth_error (Ae_2025 (FL := python_binary64) default64 :: Ae) y = Some prev /\
          nth_error Ae y = Some area /\
          area = stock_update (FL := python_binary64)
                   (rn default64) (rd default64) prev
  | Raise _ => False
  end.
Proof.
  destruct (calculate_emissions_year_by_year (FL := python_binary64) default64)
    as [[[[[ys Ae] Anew] op_em] emb_em]|e] eqn:E.
  - destruct area_sequence_recurrence as [Hgen _].
    destruct (Hgen float python_binary64 default64 ys Ae Anew op_em emb_em E)
      as (Hys & _ & HAe & _ & Hrec).
    split; [exact Hys|]. split; [exact HAe|exact Hrec].
  - exfalso.
    apply (is_ok_not_raise
             (calculate_emissions_year_by_year (FL := python_binary64) default64) e);
      [vm_compute; reflexivity|exact E].
Defined.

(** C2, as stated, fails in binary64: with the non-negative rates
    [rn = 1e-10] and [rd = 1] the function returns its 21 years, and the first
    recorded area differs from the unrounded stock change
    [area + rn*area - rd*area] of [Ae_2025] by more than 1e-9 relative (it is
    within 1e-6): the subtraction [rn*area - rd*area] is rounded before the
    sum cancels. *)
Lemma recurrence_fails_under_cancellation :
  (0 <=? Ae_initial cancelling_rates)%float = true /\
  (0 <=? rn cancelling_rates)%float = true /\
  (0 <=? rd cancelling_rates)%float = true /\
  match calculate_emissions_year_by_year (FL := python_binary64) cancelling_rates with
  | Ok (_, Ae, _, _, _) =>
      length Ae = 21%nat /\
      exists (area : float) (change : Q),
        nth_error Ae 0 = Some area /\
        exact_stock_change (rn cancelling_rates) (rd cancelling_rates)
          (Ae_2025 (FL := python_binary64) cancelling_rates) = Some change /\
        float_within 1e-9 area change = false /\
        float_within 1e-6 area change = true
  | Raise _ => False
  end.
Proof.
  split; [vm_compute; reflexivity|]. split; [vm_compute; reflexivity|].
  split; [vm_compute; reflexivity|].
  pose (chk := fun r : result (list Z * list float * list float * list float * list float) =>
    match r with
    | Ok (_, Ae, _, _, _) =>
        match nth_error Ae 0,
              exact_stock_change (rn cancelling_rates) (rd cancelling_rates)
                (Ae_2025 (FL := python_binary64) cancelling_rates) with
        | Some area, Some change =>
            Nat.eqb (length Ae) 21 && negb (float_within 1e-9 area change)
            && float_within 1e-6 area change
        | _, _ => false
        end
    | Raise _ => false
    end).
  assert (H : chk (calculate_emissions_year_by_year (FL := python_binary64)
                     cancelling_rates) = true) by (vm_compute; reflexivity).
  destruct (calculate_emissions_year_by_year cancelling_rates)
    as [[[[[ys Ae] Anew] op_em] emb_em]|e]; [|discriminate H].
  unfold chk in H.
  destruct (nth_error Ae 0) as [area|]; [|discriminate H].
  destruct (exact_stock_change _ _ _) as [change|]; [|discriminate H].
  apply andb_true_iff in H. destruct H as [H H3].
  apply andb_true_iff in H. destruct H as [H1 H2].
  apply Nat.eqb_eq in H1. apply negb_true_iff in H2.
  split; [exact H1|]. exists area, change. repeat split; assumption.
Qed.

(** C5.  In every series returned by [calculate_emissions_year_by_year], and
    in the lists that the loop of [calculate_emissions] has filled when it
    ends, in exact arithmetic and in binary64 alike: there is one entry per
    year from 2025 to the neutrality year, and for every such year the total
    area is the updated area of that year, the newly added area is the new
    construction plus the renovation of that year, the operational intensity
    is the operational budget divided by the horizon length and by the total
    area, and the embodied intensity is the embodied budget divided by the
    horizon length, by the newly added area and by 50; the divisors are
    nonzero where the division raises. *)
Theorem yearly_intensities :
  (forall (F : Type) (FL : Float F) (g : globals F)
          (ys : list Z) (Ae Anew op_em emb_em : list F),
     calculate_emissions_year_by_year g = Ok (ys, Ae, Anew, op_em, emb_em) ->
     let n := Z.to_nat (year_GHG_neutrality g - 2024) in
     ys = range 2025 (year_GHG_neutrality g + 1) /\
     length Ae = n /\ length Anew = n /\ length op_em = n /\ length emb_em = n /\
     forall y : nat, (y < n)%nat ->
       year_record true (share_operational g) (share_embodied g)
         (year_GHG_neutrality g + 1 - 2025) (rn g) (rd g) (rr g) (Ae_2025 g)
         Ae Anew op_em emb_em y) /\
  (forall (F : Type) (FL : Float F) (GB Fn : F) (yn : Z) (rn rr rd : F)
          (s : locals F),
     ParallelCoordinatesF.horizon_loop GB Fn yn rn rr rd = Ok s ->
     let n := Z.to_nat (yn - 2024) in
     length (Ae_list s) = n /\ length (Anew_list s) = n /\
     length (op_em_list s) = n /\ length (emb_em_list s) = n /\
     forall y : nat, (y < n)%nat ->
       year_record zero_division_raises
         (ParallelCoordinatesF.share_operational GB Fn)
         (ParallelCoordinatesF.share_embodied GB Fn)
         (yn + 1 - 2025) rn rd rr (ParallelCoordinatesF.Ae_2025 rn rd)
         (Ae_list s) (Anew_list s) (op_em_list s) (emb_em_list s) y).
Proof.
  split.
  - intros F FL g ys Ae Anew op_em emb_em H n.
    destruct (series_of_call g ys Ae Anew op_em emb_em H)
      as (Hz & Hys & HAe & HAnew & Hop & Hemb).
    fold n in Hz, HAe, HAnew, Hop, Hemb. subst ys Ae Anew op_em emb_em.
    rewrite !length_map, stock_series_length. repeat split.
    intros y Hy. apply series_year_record; [unfold n in Hy; lia| |exact Hy].
    intros _. exact Hz.
  - intros F FL GB Fn yn rn rr rd s H n.
    destruct (Z_le_gt_dec yn 2024) as [Hyn|Hyn].
    + unfold ParallelCoordinatesF.horizon_loop, ParallelCoordinatesF.years in H.
      rewrite range_nil in H by lia. cbn [for_] in H. injection H as <-.
      replace n with O by (unfold n; lia). cbn. repeat split. intros y Hy. lia.
    + assert (Hlen : (yn + 1 - 2025 <> 0)%Z) by lia.
      rewrite (horizon_loop_series GB Fn yn rn rr rd Hlen) in H.
      rewrite years_call_length in H. fold n in H.
      destruct (zero_division_raises
                && zero_area (stock_series rn rd rr n (ParallelCoordinatesF.Ae_2025 rn rd)))
        eqn:Hz; [discriminate H|].
      injection H as <-. cbn [Ae_list Anew_list op_em_list emb_em_list].
      rewrite !length_map, stock_series_length. repeat split.
      intros y Hy. apply series_year_record; [exact Hlen| |exact Hy].
      intros Hr. rewrite Hr in Hz. exact Hz.
Qed.

Lemma yearly_intensities_default :
  match calculate_emissions_year_by_year (FL := python_binary64) default64 with
  | Ok (_, Ae, Anew, op_em, emb_em) =>
      length op_em = 21%nat /\ length emb_em = 21%nat /\
      forall y : nat, (y < 21)%nat ->
        year_record (FL := python_binary64) true
          (share_operational (FL := python_binary64) default64)
          (share_embodied (FL := python_binary64) default64) 21
          (rn default64) (rd default64) (rr default64)
          (Ae_2025 (FL := python_binary64) default64) Ae Anew op_em emb_em y
  | Raise _ => False
  end /\
  match ParallelCoordinatesF.horizon_loop (FL := numpy_binary64)
          550%float 0.0106%float 2045 0.009%float 0.01%float 0.001%float with
  | Ok s =>
      length (op_em_list s) = 21%nat /\ length (emb_em_list s) = 21%nat /\
      forall y : nat, (y < 21)%nat ->
        year_record (FL := numpy_binary64) false
          (ParallelCoordinatesF.share_operational (FL := numpy_binary64)
             550%float 0.0106%float)
          (ParallelCoordinatesF.share_embodied (FL := numpy_binary64)
             550%float 0.0106%float) 21
          0.009%float 0.001%float 0.01%float
          (ParallelCoordinatesF.Ae_2025 (FL := numpy_binary64) 0.009%float 0.001%float)
          (Ae_list s) (Anew_list s) (op_em_list s) (emb_em_list s) y
  | Raise _ => False
  end.
Proof.
  split.
  - destruct (calculate_emissions_year_by_year (FL := python_binary64) default64)
      as [[[[[ys Ae] Anew] op_em] emb_em]|e] eqn:E.
    + destruct (proj1 yearly_intensities float python_binary64 default64
                  ys Ae Anew op_em emb_em E) as (_ & _ & _ & Hop & Hemb & Hrec).
      split; [exact Hop|]. split; [exact Hemb|exact Hrec].
    + exfalso.
      apply (is_ok_not_raise
               (calculate_emissions_year_by_year (FL := python_binary64) default64) e);
        [vm_compute; reflexivity|exact E].
  - destruct (ParallelCoordinatesF.horizon_loop (FL := numpy_binary64)
                550%float 0.0106%float 2045 0.009%float 0.01%float 0.001%float)
      as [s|e] eqn:E.
    + destruct (proj2 yearly_intensities float numpy_binary64
                  550%float 0.0106%float 2045%Z 0.009%float 0.01%float 0.001%float
                  s E) as (_ & _ & Hop & Hemb & Hrec).
      split; [exact Hop|]. split; [exact Hemb|exact Hrec].
    + exfalso.
      apply (is_ok_not_raise
               (ParallelCoordinatesF.horizon_loop (FL := numpy_binary64)
                  550%float 0.0106%float 2045 0.009%float 0.01%float 0.001%float) e);
        [vm_compute; reflexivity|exact E].
Defined.

(** C8, as the code has it.  [calculate_emissions] checks none of its
    arguments.  It fails only with [ZeroDivisionError]: when the neutrality
    year is 2024, so that the horizon has length zero and the averages are
    [0 / 0] on Python ints; and, where the division of the rates' type raises
    (Python floats), when the total or the newly added area of some horizon
    year is zero.  With [numpy.float64] rates, as the sweep of the file passes
    them, a zero area raises nothing and every call for another year than
    2024 returns.  Whether a call fails does not depend on [GB] or [Fn]. *)
Theorem calculate_emissions_validates_nothing
  (F : Type) (FL : Float F) (GB Fn : F) (yn : Z) (rn rr rd : F) :
  (ParallelCoordinatesF.calculate_emissions GB Fn yn rn rr rd
     = Raise ZeroDivisionError <->
   yn = 2024%Z \/
   (zero_division_raises = true /\
    exists (y : nat) (area new_active : F),
      nth_error (stock_series rn rd rr (Z.to_nat (yn - 2024))
                   (ParallelCoordinatesF.Ae_2025 rn rd)) y
        = Some (area, new_active) /\
      (is_zero area = true \/ is_zero new_active = true))) /\
  (zero_division_raises = false -> yn <> 2024%Z ->
   is_ok (ParallelCoordinatesF.calculate_emissions GB Fn yn rn rr rd) = true) /\
  (forall GB' Fn' : F,
     is_ok (ParallelCoordinatesF.calculate_emissions GB' Fn' yn rn rr rd)
     = is_ok (ParallelCoordinatesF.calculate_emissions GB Fn yn rn rr rd)).
Proof.
  assert (Hlen : (yn + 1 - 2025 =? 0)%Z = true <-> yn = 2024%Z).
  { rewrite Z.eqb_eq. lia. }
  split; [|split].
  - rewrite calculate_emissions_outcome, years_call_length.
    rewrite <- zero_area_true.
    destruct (yn + 1 - 2025 =? 0)%Z.
    + split; [intros _; left; now apply Hlen|reflexivity].
    + destruct zero_division_raises; cbn [andb].
      * destruct (zero_area _); split; intros H; try reflexivity.
        -- right. now split.
        -- discriminate H.
        -- destruct H as [H|[_ H]]; [apply Hlen in H|]; discriminate H.
      * split; [discriminate|].
        intros [H|[H _]]; [apply Hlen in H|]; discriminate H.
  - intros Hr Hyn. rewrite calculate_emissions_outcome, Hr.
    destruct (yn + 1 - 2025 =? 0)%Z eqn:E; [|reflexivity].
    exfalso. apply Hyn, Hlen. reflexivity.
  - intros GB' Fn'. rewrite !calculate_emissions_outcome.
    destruct (yn + 1 - 2025 =? 0)%Z; [reflexivity|].
    destruct (zero_division_raises && zero_area _); reflexivity.
Qed.

End SeriesClaims.
Section YearByYearFailure.

Import YearByYear.




Lemma nonzero_areas_false (ev : list (Qc * Qc)) :
  nonzero_areas ev = false <->
  exists (y : nat) (area new_active : Qc),
    nth_error ev y = Some (area, new_active) /\ (area = 0 \/ new_active = 0).
Proof.
  induction ev as [|[a n] ev IH]; cbn [nonzero_areas forallb fst snd].
  - split; [discriminate|]. intros (y & a & n & H & _). destruct y; discriminate.
  - fold (nonzero_areas ev). split.
    + intros H. apply andb_false_iff in H. destruct H as [H|H].
      * exists O, a, n. split; [reflexivity|].
        apply andb_false_iff in H. destruct H as [H|H];
          apply negb_false_iff, Qc_eq_bool_true in H; auto.
      * apply IH in H. destruct H as (y & a' & n' & H & H0).
        exists (S y), a', n'. now split.
    + intros (y & a' & n' & H & H0). apply andb_false_iff.
      destruct y as [|y].
      * injection H as -> ->. left. apply andb_false_iff.
        destruct H0 as [H0|H0]; [left|right];
          now apply negb_false_iff, Qc_eq_bool_true.
      * right. apply IH. now exists y, a', n'.
Qed.

(** C7, as the code has it.  [calculate_emissions_year_by_year] fails exactly
    when the total area or the newly added area of some horizon year is zero;
    the failure is Python's [ZeroDivisionError], it carries no series, and it
    passes uncaught through the statements that print the averages.  A
    negative area is no failure. *)
Theorem zero_area_is_the_failure (g : globals) :
  (calculate_emissions_year_by_year g = Raise ZeroDivisionError <->
   exists (y : nat) (area new_active : Qc),
     nth_error (area_evolution g) y = Some (area, new_active) /\
     (area = 0 \/ new_active = 0)) /\
  (forall e, calculate_emissions_year_by_year g = Raise e -> averages g = Raise e) /\
  (is_ok (calculate_emissions_year_by_year g) = nonzero_areas (area_evolution g)).
Proof.
  rewrite calculate_emissions_year_by_year_spec. cbv zeta.
  split; [|split].
  - rewrite <- nonzero_areas_false.
    destruct (nonzero_areas (area_evolution g)); split; congruence.
  - intros e H. unfold averages. rewrite calculate_emissions_year_by_year_spec.
    cbv zeta. rewrite H. reflexivity.
  - destruct (nonzero_areas (area_evolution g)); reflexivity.
Qed.

(** C7, as stated, fails: with a demolition rate of two the first horizon
    year has a negative total area and the second a negative newly added
    area, and the function returns all 21 years, with negative intensities. *)
Lemma negative_area_is_returned :
  match calculate_emissions_year_by_year demolition_overwhelms with
  | Ok (_, Ae, Anew, op_em, emb_em) =>
      length op_em = 21%nat /\ length emb_em = 21%nat /\
      (exists area E_op,
         nth_error Ae 0 = Some area /\ area < 0 /\
         nth_error op_em 0 = Some E_op /\ E_op < 0) /\
      (exists new_active E_emb,
         nth_error Anew 1 = Some new_active /\ new_active < 0 /\
         nth_error emb_em 1 = Some E_emb /\ E_emb < 0)
  | Raise _ => False
  end.
Proof.
  pose (chk := fun r : result (list Z * list Qc * list Qc * list Qc * list Qc) =>
    match r with
    | Ok (_, Ae, Anew, op_em, emb_em) =>
        match nth_error Ae 0, nth_error op_em 0, nth_error Anew 1, nth_error emb_em 1 with
        | Some area, Some E_op, Some new_active, Some E_emb =>
            Qclt_bool area 0 && Qclt_bool E_op 0
            && Qclt_bool new_active 0 && Qclt_bool E_emb 0
        | _, _, _, _ => false
        end
    | Raise _ => false
    end).
  assert (H : chk (calculate_emissions_year_by_year demolition_overwhelms) = true)
    by (vm_compute; reflexivity).
  destruct (calculate_emissions_year_by_year demolition_overwhelms)
    as [[[[[ys Ae] Anew] op_em] emb_em]|e] eqn:E; [|discriminate H].
  destruct (series_lengths demolition_overwhelms ys Ae Anew op_em emb_em E)
    as (_ & _ & Hop & Hemb).
  split; [exact Hop|]. split; [exact Hemb|].
  unfold chk in H.
  destruct (nth_error Ae 0) as [area|]; [|discriminate H].
  destruct (nth_error op_em 0) as [E_op|]; [|discriminate H].
  destruct (nth_error Anew 1) as [new_active|]; [|discriminate H].
  destruct (nth_error emb_em 1) as [E_emb|]; [|discriminate H].
  apply andb_true_iff in H. destruct H as [H H4].
  apply andb_true_iff in H. destruct H as [H H3].
  apply andb_true_iff in H. destruct H as [H1 H2].
  apply Qclt_bool_true in H1, H2, H3, H4. split.
  - exists area, E_op. repeat split; assumption.
  - exists new_active, E_emb. repeat split; assumption.
Qed.

End YearByYearFailure.

(** ** parallel coordinates.py against calculations_year_by_year.py *)

Section BothFiles.

Import YearByYear.

Lemma horizon_loop_eq (GB Fn : Qc) (yn : Z) (rn rr rd : Qc) :
  ParallelCoordinates.horizon_loop GB Fn yn rn rr rd
  = let g := globals_of_call GB Fn yn rn rr rd in
    for_ (years g) (body g) (initial_locals g).
Proof. reflexivity. Qed.

(** C6.  The two category budgets of the code are the allocator's formula
    [((global - deduction) / factor) * national * sector * category * 1e12]
    with the category share [Fo] and [Fe]: for the constants of
    calculations_year_by_year.py (550 Gt, 185 Gt deducted, factor 0.887) and
    for every call of [calculate_emissions]. *)
Theorem category_budgets :
  share_operational default
    = allocate (of_int 550) (of_int 185) (dec 0.887)
        (Fn default) (Fb default) (Fo default) /\
  share_embodied default
    = allocate (of_int 550) (of_int 185) (dec 0.887)
        (Fn default) (Fb default) (Fe default) /\
  Fo default + Fe default = 1 /\
  forall GB Fn : Qc,
    ParallelCoordinates.share_operational GB Fn
      = allocate GB (of_int 185) (dec 0.887) Fn
          ParallelCoordinates.Fb ParallelCoordinates.Fo /\
    ParallelCoordinates.share_embodied GB Fn
      = allocate GB (of_int 185) (dec 0.887) Fn
          ParallelCoordinates.Fb ParallelCoordinates.Fe.
Proof.
  assert (Hint : of_int (550 - 185) = of_int 550 - of_int 185)
    by (apply Qc_is_canon; vm_compute; reflexivity).
  unfold share_operational, share_embodied, allocate.
  cbn [GB default]. rewrite Hint. repeat split.
  unfold Fo. ring.
Qed.

Lemma calculate_emissions_averages (GB Fn : Qc) (yn : Z) (rn rr rd : Qc) :
  ParallelCoordinates.calculate_emissions GB Fn yn rn rr rd
  = averages (globals_of_call GB Fn yn rn rr rd).
Proof.
  unfold ParallelCoordinates.calculate_emissions, averages,
    calculate_emissions_year_by_year.
  rewrite horizon_loop_eq. cbv zeta.
  destruct (for_ _ _ _); reflexivity.
Qed.

(** C10, as the code has it.  [calculate_emissions(GB, Fn, year, rn, rr, rd)]
    is the computation of calculations_year_by_year.py (the series, then the
    two averages) when that file's [Fn], [rn], [rr], [rd],
    [year_GHG_neutrality] are the arguments and its [GB] is
    [(GB - 185) / 0.887], the budget that [calculate_emissions] derives from
    its argument; the two results are equal, failures included. *)
Theorem calculate_emissions_is_averages (GB Fn : Qc) (yn : Z) (rn rr rd : Qc) :
  ParallelCoordinates.calculate_emissions GB Fn yn rn rr rd
  = averages (globals_of_call GB Fn yn rn rr rd) /\
  YearByYear.GB (globals_of_call GB Fn yn rn rr rd) = (GB - of_int 185) / dec 0.887 /\
  YearByYear.Fn (globals_of_call GB Fn yn rn rr rd) = Fn /\
  YearByYear.rn (globals_of_call GB Fn yn rn rr rd) = rn /\
  YearByYear.rr (globals_of_call GB Fn yn rn rr rd) = rr /\
  YearByYear.rd (globals_of_call GB Fn yn rn rr rd) = rd /\
  YearByYear.year_GHG_neutrality (globals_of_call GB Fn yn rn rr rd) = yn /\
  YearByYear.Fb (globals_of_call GB Fn yn rn rr rd) = YearByYear.Fb default /\
  YearByYear.Fe (globals_of_call GB Fn yn rn rr rd) = YearByYear.Fe default /\
  YearByYear.Ae_initial (globals_of_call GB Fn yn rn rr rd)
    = YearByYear.Ae_initial default.
Proof.
  split; [apply calculate_emissions_averages|]. repeat split.
Qed.

End BothFiles.

Section CallFailure.

Import YearByYear.

(** C10, as stated, fails: with the same value 550 for the constant [GB] of
    calculations_year_by_year.py and for the argument [GB], all other
    constants being those of the two files, the averages differ; they agree
    when the constant is [(550 - 185) / 0.887], as the file has it. *)
Lemma same_GB_gives_other_averages :
  ParallelCoordinates.calculate_emissions (of_int 550) (dec 0.0106) 2045
    (dec 0.009) (dec 0.01) (dec 0.001)
  <> averages GB_as_argument /\
  ParallelCoordinates.calculate_emissions (of_int 550) (dec 0.0106) 2045
    (dec 0.009) (dec 0.01) (dec 0.001)
  = averages default.
Proof.
  split.
  - intros H.
    assert (Hne : match ParallelCoordinates.calculate_emissions (of_int 550)
                          (dec 0.0106) 2045 (dec 0.009) (dec 0.01) (dec 0.001),
                        averages GB_as_argument with
                  | Ok (a, _), Ok (a', _) => Qc_eq_bool a a'
                  | _, _ => true
                  end = false) by (vm_compute; reflexivity).
    rewrite H in Hne. destruct (averages GB_as_argument) as [[a b]|e];
      [|discriminate Hne].
    apply Qc_eq_bool_false in Hne. now apply Hne.
  - rewrite calculate_emissions_averages.
    replace (globals_of_call (of_int 550) (dec 0.0106) 2045
               (dec 0.009) (dec 0.01) (dec 0.001)) with default; [reflexivity|].
    unfold globals_of_call, default. f_equal.
Qed.

End CallFailure.

Section NoValidation.

Import YearByYear.

Lemma averages_spec (g : globals) :
  averages g =
    let ev := area_evolution g in
    let E_op := fun p => share_operational g / horizon_length g / fst p in
    let E_emb := fun p => share_embodied g / horizon_length g / snd p / of_int 50 in
    if nonzero_areas ev && negb (Qc_eq_bool (horizon_length g) 0)
    then Ok (sum (map E_op ev) / horizon_length g,
             sum (map E_emb ev) / horizon_length g)
    else Raise ZeroDivisionError.
Proof.
  unfold averages. rewrite calculate_emissions_year_by_year_spec. cbv zeta.
  destruct (nonzero_areas (area_evolution g)); cbn [bind andb]; [|reflexivity].
  unfold truediv. destruct (Qc_eq_bool (horizon_length g) 0); reflexivity.
Qed.

Lemma horizon_length_zero (g : globals) :
  horizon_length g = 0 <-> year_GHG_neutrality g = 2024%Z.
Proof.
  unfold horizon_length. split.
  - intros H. destruct (Z.eq_dec (year_GHG_neutrality g + 1 - 2025) 0) as [E|E];
      [lia|]. now apply of_int_nonzero in E.
  - intros ->. reflexivity.
Qed.

(** C8, as stated, fails: a national share of 2, outside [0,1], is accepted
    and both averages are returned; so is a neutrality year 2020, before the
    start of the horizon, for which both averages are zero. *)
Lemma invalid_parameters_are_accepted :
  is_ok (ParallelCoordinates.calculate_emissions (of_int 550) (of_int 2) 2045
           (dec 0.009) (dec 0.01) (dec 0.001)) = true /\
  match ParallelCoordinates.calculate_emissions (of_int 550) (dec 0.0106) 2020
          (dec 0.009) (dec 0.01) (dec 0.001) with
  | Ok (average_op_em, average_emb_em) => average_op_em = 0 /\ average_emb_em = 0
  | Raise _ => False
  end.
Proof.
  split; [vm_compute; reflexivity|].
  destruct (ParallelCoordinates.calculate_emissions _ _ 2020 _ _ _)
    as [[a b]|e] eqn:E; vm_compute in E; [|discriminate E].
  injection E as <- <-. split; apply Qc_is_canon; reflexivity.
Qed.

End NoValidation.

(** ** The exact model is the runtime model at exact rationals *)

Section ExactInstance.

#[local] Existing Instance python_exact.

Lemma lit_exact (q : Q) : lit q = dec q.
Proof.
  unfold lit, dec. cbn [div of_Z python_exact]. unfold of_int.
  apply Qc_is_canon. destruct q as [n d]. cbn [Qnum Qden].
  unfold Qcdiv, Qcinv, Qcmult, Q2Qc. cbn [this]. rewrite !Qred_correct.
  unfold Qeq, Qinv, Qmult, inject_Z. cbn. lia.
Qed.

Lemma stock_series_exact (g : YearByYear.globals) (n : nat) (A : Qc) :
  stock_series (YearByYear.rn g) (YearByYear.rd g) (YearByYear.rr g) n A
  = YearByYear.area_evolution_from g n A.
Proof.
  revert A. induction n as [|n IH]; intros A; [reflexivity|].
  cbn [stock_series YearByYear.area_evolution_from]. rewrite IH. reflexivity.
Qed.

Lemma zero_area_exact (ev : list (Qc * Qc)) : zero_area ev = negb (nonzero_areas ev).
Proof.
  induction ev as [|p ev IH]; [reflexivity|].
  cbn [zero_area existsb nonzero_areas forallb]. fold (zero_area ev).
  fold (nonzero_areas ev). rewrite IH. cbn [is_zero python_exact].
  destruct (Qc_eq_bool (fst p) 0), (Qc_eq_bool (snd p) 0), (nonzero_areas ev);
    reflexivity.
Qed.

Lemma shares_exact (g : YearByYear.globals) :
  YearByYearF.share_operational (runtime_globals g) = YearByYear.share_operational g /\
  YearByYearF.share_embodied (runtime_globals g) = YearByYear.share_embodied g.
Proof.
  unfold YearByYearF.share_operational, YearByYearF.share_embodied,
    YearByYear.share_operational, YearByYear.share_embodied,
    YearByYearF.Fo, YearByYear.Fo.
  rewrite lit_exact. cbn [runtime_globals YearByYearF.GB YearByYearF.Fn
    YearByYearF.Fb YearByYearF.Fe mul sub of_Z python_exact].
  rewrite of_int_1. split; reflexivity.
Qed.

(** The exact model of calculations_year_by_year.py is the model over
    [Float] at the instance [python_exact]. *)
Lemma exact_model_is_instance (g : YearByYear.globals) :
  YearByYearF.calculate_emissions_year_by_year (runtime_globals g)
  = YearByYear.calculate_emissions_year_by_year g.
Proof.
  rewrite calculate_emissions_year_by_year_series,
    calculate_emissions_year_by_year_spec. cbv zeta.
  destruct (shares_exact g) as [-> ->].
  change (YearByYearF.years (runtime_globals g)) with (YearByYear.years g).
  change (YearByYearF.Ae_2025 (runtime_globals g)) with (YearByYear.Ae_2025 g).
  cbn [runtime_globals YearByYearF.rn YearByYearF.rd YearByYearF.rr
       YearByYearF.year_GHG_neutrality].
  rewrite stock_series_exact. fold (YearByYear.area_evolution g).
  rewrite zero_area_exact.
  destruct (nonzero_areas (YearByYear.area_evolution g)); reflexivity.
Qed.

Lemma Ae_initial_exact : ParallelCoordinatesF.Ae_initial = ParallelCoordinates.Ae_initial.
Proof.
  unfold ParallelCoordinatesF.Ae_initial, ParallelCoordinatesF.Ae_residential,
    ParallelCoordinatesF.Ae_nonresidential. rewrite !lit_exact. reflexivity.
Qed.

Lemma shares_of_call_exact (GB Fn : Qc) :
  ParallelCoordinatesF.share_operational GB Fn
    = ParallelCoordinates.share_operational GB Fn /\
  ParallelCoordinatesF.share_embodied GB Fn
    = ParallelCoordinates.share_embodied GB Fn.
Proof.
  unfold ParallelCoordinatesF.share_operational, ParallelCoordinatesF.share_embodied,
    ParallelCoordinatesF.GB_GHG, ParallelCoordinatesF.GB', ParallelCoordinatesF.Fb,
    ParallelCoordinatesF.Fo, ParallelCoordinatesF.Fe.
  rewrite !lit_exact. cbn [mul sub div of_Z python_exact]. rewrite of_int_1.
  split; reflexivity.
Qed.

(** The exact model of [calculate_emissions] is the model over [Float] at
    the instance [python_exact]. *)
Lemma exact_call_is_instance (GB Fn : Qc) (yn : Z) (rn rr rd : Qc) :
  ParallelCoordinatesF.calculate_emissions GB Fn yn rn rr rd
  = ParallelCoordinates.calculate_emissions GB Fn yn rn rr rd.
Proof.
  rewrite calculate_emissions_outcome, calculate_emissions_averages, averages_spec.
  cbv zeta. destruct (shares_of_call_exact GB Fn) as [-> ->].
  set (g := globals_of_call GB Fn yn rn rr rd).
  change (ParallelCoordinatesF.years yn) with (YearByYear.years g).
  replace (ParallelCoordinatesF.Ae_2025 rn rd) with (YearByYear.Ae_2025 g)
    by (unfold ParallelCoordinatesF.Ae_2025; rewrite Ae_initial_exact; reflexivity).
  rewrite (stock_series_exact g). fold (YearByYear.area_evolution g).
  rewrite zero_area_exact. cbn [zero_division_raises python_exact andb].
  destruct (Z.eqb_spec (yn + 1 - 2025) 0) as [E|E].
  - assert (H : YearByYear.horizon_length g = 0)
      by (apply horizon_length_zero; cbn; lia).
    apply Qc_eq_bool_true in H. rewrite H, andb_false_r. reflexivity.
  - assert (H : YearByYear.horizon_length g <> 0).
    { intros H. apply horizon_length_zero in H. cbn in H. lia. }
    apply Qc_eq_bool_false in H. rewrite H, andb_true_r.
    destruct (nonzero_areas (YearByYear.area_evolution g)); reflexivity.
Qed.

End ExactInstance.

(** ** The static levels of the dynamic scripts *)

Section StaticLevels.

Import YearByYear.

(** C3, as the code has it.  For the constants of
    calculations_year_by_year.py the two averages over 2025-2045 are 3.8568...
    and 2.4106...: they are [x_op_base = 3.86] and [x_e_base = 2.41] once
    rounded to two decimals, as the script prints them.  The target of each
    dynamic script is its level times [T_max - T_min = 20], while the
    averages are taken over the 21 years of the series. *)
Theorem static_levels_are_rounded_averages :
  match averages default with
  | Ok (average_op, average_emb) =>
      DynamicOE.x_op_base - dec 0.005 < average_op
      /\ average_op < DynamicOE.x_op_base + dec 0.005
      /\ DynamicEE.x_e_base - dec 0.005 < average_emb
      /\ average_emb < DynamicEE.x_e_base + dec 0.005
  | Raise _ => False
  end /\
  DynamicOE.I_constant = DynamicOE.x_op_base * of_int 20 /\
  DynamicEE.I_constant = DynamicEE.x_e_base * of_int 20 /\
  Solver.I_constant (FL := python_exact) DynamicOE.x_op_base = DynamicOE.I_constant /\
  Solver.I_constant (FL := python_exact) DynamicEE.x_e_base = DynamicEE.I_constant /\
  horizon_length default = of_int 21.
Proof.
  split; [|repeat split].
  assert (H : match averages default with
              | Ok (a, b) =>
                  Qclt_bool (DynamicOE.x_op_base - dec 0.005) a
                  && Qclt_bool a (DynamicOE.x_op_base + dec 0.005)
                  && Qclt_bool (DynamicEE.x_e_base - dec 0.005) b
                  && Qclt_bool b (DynamicEE.x_e_base + dec 0.005)
              | Raise _ => false
              end = true) by (vm_compute; reflexivity).
  destruct (averages default) as [[a b]|e]; [|discriminate H].
  apply andb_true_iff in H. destruct H as [H H4].
  apply andb_true_iff in H. destruct H as [H H3].
  apply andb_true_iff in H. destruct H as [H1 H2].
  apply Qclt_bool_true in H1, H2, H3, H4. repeat split; assumption.
Qed.

(** C3, as stated, fails: neither average is the level of the dynamic script;
    the operational one lies above 3.8568 and the embodied one above 2.4106. *)
Lemma averages_are_not_the_static_levels :
  match averages default with
  | Ok (average_op, average_emb) =>
      average_op <> DynamicOE.x_op_base /\ average_emb <> DynamicEE.x_e_base
      /\ dec 3.8568 < average_op < dec 3.8569
      /\ dec 2.4106 < average_emb < dec 2.4107
  | Raise _ => False
  end.
Proof.
  assert (H : match averages default with
              | Ok (a, b) =>
                  negb (Qc_eq_bool a DynamicOE.x_op_base)
                  && negb (Qc_eq_bool b DynamicEE.x_e_base)
                  && Qclt_bool (dec 3.8568) a && Qclt_bool a (dec 3.8569)
                  && Qclt_bool (dec 2.4106) b && Qclt_bool b (dec 2.4107)
              | Raise _ => false
              end = true) by (vm_compute; reflexivity).
  destruct (averages default) as [[a b]|e]; [|discriminate H].
  apply andb_true_iff in H. destruct H as [H H6].
  apply andb_true_iff in H. destruct H as [H H5].
  apply andb_true_iff in H. destruct H as [H H4].
  apply andb_true_iff in H. destruct H as [H H3].
  apply andb_true_iff in H. destruct H as [H1 H2].
  apply negb_true_iff, Qc_eq_bool_false in H1.
  apply negb_true_iff, Qc_eq_bool_false in H2.
  apply Qclt_bool_true in H3, H4, H5, H6. repeat split; assumption.
Qed.

End StaticLevels.

(** ** The curve solver *)

Section SolverOutcome.

Context {F : Type} {FL : Float F}.
Variables (x_base : F) (Z_ : F -> F) (factor : F) (quad : (F -> F) -> F -> F -> F).

(** C4, as the code has it.  After [solve_for_a_b] the script recomputes the
    end/start ratio and the integral and hands them on (it prints them): it
    compares neither with [factor_2025_2045] or [I_constant].  A run fails
    only where a division has a zero divisor and the runtime raises on that
    (Python floats, not NumPy scalars): [1 - factor_2025_2045], [denom], or
    [dynamic(T_min)]; in every other case it returns [a], [b] and the two
    recomputed values, whatever they are. *)
Theorem script_fails_on_zero_division_only :
  let d1 := sub (of_Z 1) factor in
  let dn := Solver.denom Z_ factor quad in
  let b := div (Solver.I_constant x_base) dn in
  let a := div (mul b (Solver.numerator Z_ factor)) d1 in
  let start := Solver.dynamic Z_ a b (of_Z Solver.T_min) in
  let end_ := Solver.dynamic Z_ a b (of_Z Solver.T_max) in
  Solver.script x_base Z_ factor quad =
    if zero_division_raises && (is_zero d1 || is_zero dn || is_zero start)
    then Raise ZeroDivisionError
    else Ok (a, b, div end_ start,
             quad (Solver.dynamic Z_ a b) (of_Z Solver.T_min) (of_Z Solver.T_max)).
Proof.
  cbv zeta. unfold Solver.script, Solver.solve_for_a_b, fdiv.
  fold (Solver.numerator Z_ factor).
  destruct zero_division_raises; cbn [andb bind]; [|reflexivity].
  destruct (is_zero (sub (of_Z 1) factor)); cbn [orb bind]; [reflexivity|].
  fold (Solver.denom Z_ factor quad).
  destruct (is_zero (Solver.denom Z_ factor quad)); cbn [orb bind]; [reflexivity|].
  destruct (is_zero _); reflexivity.
Qed.

End SolverOutcome.

(** C4, as stated, fails.  In binary64 with Python's division, for the
    nearly constant curve, the level 2.41 and the ratio 5.9/47.7, the script
    returns a curve whose recomputed ratio and integral both miss their
    targets by more than 1e-3 relative.  With NumPy's division and a ratio of
    1 it returns a curve whose [a], ratio and integral are nan. *)
Lemma failed_verification_is_returned :
  match Solver.script (FL := python_binary64) 2.41%float Z_nearly_constant
          (5.9 / 47.7)%float (Solver.simpson (FL := python_binary64)) with
  | Ok (a, b, ratio_2045_2025, I_dynamic) =>
      (1e-3 * abs (5.9 / 47.7) <? abs (ratio_2045_2025 - 5.9 / 47.7))%float = true /\
      (1e-3 * abs (2.41 * 20) <? abs (I_dynamic - 2.41 * 20))%float = true
  | Raise _ => False
  end /\
  match Solver.script (FL := numpy_binary64) 3.86%float Z_line
          1%float (Solver.simpson (FL := numpy_binary64)) with
  | Ok (a, b, ratio_2045_2025, I_dynamic) =>
      PrimFloat.is_nan a = true /\ PrimFloat.is_nan ratio_2045_2025 = true /\
      PrimFloat.is_nan I_dynamic = true
  | Raise _ => False
  end.
Proof.
  split.
  - destruct (Solver.script (FL := python_binary64) _ _ _ _)
      as [[[[a b] r] I]|e] eqn:E; vm_compute in E; [|discriminate E].
    injection E as <- <- <- <-. split; vm_compute; reflexivity.
  - destruct (Solver.script (FL := numpy_binary64) _ _ _ _)
      as [[[[a b] r] I]|e] eqn:E; vm_compute in E; [|discriminate E].
    injection E as <- <- <- <-. repeat split.
Qed.

(** ** The solved curve in exact arithmetic *)

Section SolverExact.

#[local] Existing Instance python_exact.

Variables (x_base : Qc) (Z_ : Qc -> Qc) (factor : Qc).
Variable quad : (Qc -> Qc) -> Qc -> Qc -> Qc.

Let lo : Qc := of_int Solver.T_min.
Let hi : Qc := of_int Solver.T_max.






End SolverExact.

(** ** The solved curve for well-conditioned input *)



Section SolverConditioned.

#[local] Existing Instance python_exact.




End SolverConditioned.


Section SolverExamples.

#[local] Existing Instance python_exact.



End SolverExamples.

(** * Further properties of the code *)

(** ** The empty horizon *)

Section IntensityExtras.

Import YearByYear.

(** When no year of the horizon exists (a neutrality year before 2025) the
    function returns five empty lists; the two averages are then [0 / n] with
    [n] the negative int [year + 1 - 2025], so zero, except for the year 2024,
    where [n] is zero and the division raises.  [calculate_emissions] behaves
    the same. *)
Theorem empty_horizon (g : globals) :
  (year_GHG_neutrality g < 2025)%Z ->
  calculate_emissions_year_by_year g = Ok ([], [], [], [], []) /\
  ((year_GHG_neutrality g < 2024)%Z -> averages g = Ok (0, 0)) /\
  (year_GHG_neutrality g = 2024%Z -> averages g = Raise ZeroDivisionError) /\
  (forall GB Fn rn rr rd : Qc,
     (year_GHG_neutrality g < 2024)%Z ->
     ParallelCoordinates.calculate_emissions GB Fn (year_GHG_neutrality g) rn rr rd
       = Ok (0, 0)).
Proof.
  intros Hy.
  assert (Hcalc : forall g' : globals, (year_GHG_neutrality g' < 2025)%Z ->
            calculate_emissions_year_by_year g' = Ok ([], [], [], [], [])).
  { intros g' Hy'. unfold calculate_emissions_year_by_year, years.
    rewrite range_nil by lia. reflexivity. }
  assert (Havg : forall g' : globals, (year_GHG_neutrality g' < 2024)%Z ->
            averages g' = Ok (0, 0)).
  { intros g' Hy'. unfold averages. rewrite Hcalc by lia. cbn [bind].
    assert (Hlen : horizon_length g' <> 0) by (apply of_int_nonzero; lia).
    rewrite !(truediv_nonzero _ _ Hlen). cbn [bind].
    replace (sum [] / horizon_length g') with 0
      by (unfold sum; cbn [fold_left]; field; exact Hlen).
    reflexivity. }
  split; [now apply Hcalc|]. split; [apply Havg|]. split.
  - intros E. unfold averages. rewrite Hcalc by lia. cbn [bind].
    rewrite truediv_zero; [reflexivity|]. unfold horizon_length. now rewrite E.
  - intros GB Fn rn rr rd Hy'. rewrite calculate_emissions_averages.
    apply Havg. exact Hy'.
Qed.

(** The constants of the file with the neutrality year 2020. *)
Lemma empty_horizon_2020 :
  ParallelCoordinates.calculate_emissions (of_int 550) (dec 0.0106) 2020
    (dec 0.009) (dec 0.01) (dec 0.001) = Ok (0, 0).
Proof.
  apply (proj2 (proj2 (proj2 (empty_horizon
           (globals_of_call (of_int 550) (dec 0.0106) 2020
              (dec 0.009) (dec 0.01) (dec 0.001))
           ltac:(cbn; lia))))).
  cbn; lia.
Defined.

End IntensityExtras.

(** ** The area series in closed form *)

Lemma sum_cons (x : Qc) (xs : list Qc) : sum (x :: xs) = x + sum xs.
Proof.
  unfold sum. cbn [fold_left]. rewrite Qcplus_0_l.
  revert x. induction xs as [|y xs IH]; intros x; cbn [fold_left].
  - now rewrite Qcplus_0_r.
  - rewrite IH. rewrite (IH (0 + y)). ring.
Qed.

Lemma sum_pos (xs : list Qc) :
  xs <> [] -> Forall (fun x => 0 < x) xs -> 0 < sum xs.
Proof.
  induction xs as [|x xs IH]; [congruence|]. intros _ H. inversion H; subst.
  rewrite sum_cons. destruct xs as [|y xs].
  - unfold sum. cbn. now rewrite Qcplus_0_r.
  - apply Qcplus_pos; [assumption|]. apply IH; [discriminate|assumption].
Qed.

Lemma Qcpower_add (q : Qc) (n m : nat) : q ^ (n + m) = q ^ n * q ^ m.
Proof.
  induction n as [|n IH]; cbn [Nat.add Qcpower]; [ring|]. rewrite IH. ring.
Qed.

Section AreaClosedForm.

Import YearByYear.
Variable g : globals.

Lemma pre_step_growth (A : Qc) : pre_step g A = A * growth g.
Proof. unfold pre_step, growth. ring. Qed.

Lemma Ae_2025_growth : Ae_2025 g = Ae_initial g * growth g ^ 4.
Proof.
  change (Ae_2025 g)
    with (pre_step g (pre_step g (pre_step g (pre_step g (Ae_initial g))))).
  rewrite !pre_step_growth. cbn [Qcpower]. ring.
Qed.

Lemma area_evolution_nth (n : nat) (A : Qc) (k : nat) (a nw : Qc) :
  nth_error (area_evolution_from g n A) k = Some (a, nw) ->
  a = A * growth g ^ (S k) /\ nw = (rn g + rr g) * (A * growth g ^ k).
Proof.
  revert A k. induction n as [|n IH]; intros A k; [destruct k; discriminate|].
  cbn [area_evolution_from]. destruct k as [|k]; cbn [nth_error].
  - intros H. injection H as <- <-. unfold growth. cbn [Qcpower]. split; ring.
  - intros H. apply IH in H. destruct H as [-> ->]. unfold growth.
    cbn [Qcpower]. split; ring.
Qed.

Lemma area_evolution_positive (n : nat) (A : Qc) :
  0 < A -> 0 < growth g -> 0 < rn g + rr g ->
  Forall (fun p => 0 < fst p /\ 0 < snd p) (area_evolution_from g n A).
Proof.
  intros HA Hq Hr. revert A HA. induction n as [|n IH]; intros A HA;
    cbn [area_evolution_from]; constructor.
  - cbn [fst snd]. unfold growth in Hq. split; qc2q; nra.
  - apply IH. unfold growth in Hq. qc2q. nra.
Qed.

Lemma positive_areas_nonzero (ev : list (Qc * Qc)) :
  Forall (fun p => 0 < fst p /\ 0 < snd p) ev -> nonzero_areas ev = true.
Proof.
  induction 1 as [|p ev [Ha Hn] _ IH]; [reflexivity|].
  unfold nonzero_areas. cbn [forallb]. fold (nonzero_areas ev). rewrite IH.
  apply Qclt_nonzero, Qc_eq_bool_false in Ha.
  apply Qclt_nonzero, Qc_eq_bool_false in Hn. now rewrite Ha, Hn.
Qed.

Lemma Ae_2025_positive : 0 < Ae_initial g -> 0 < growth g -> 0 < Ae_2025 g.
Proof.
  intros HA Hq. rewrite Ae_2025_growth. apply Qcmult_pos; [assumption|].
  cbn [Qcpower].
  apply Qcmult_pos; [exact Hq|]. apply Qcmult_pos; [exact Hq|].
  apply Qcmult_pos; [exact Hq|]. apply Qcmult_pos; [exact Hq|]. qc_compare.
Qed.

End AreaClosedForm.

Lemma moderate_stock_positive (A rn rd rr : Qc) (yn : Z) :
  moderate_stock A rn rd rr yn -> 0 < A /\ 0 < rn + rr /\ rd < 1 + rn.
Proof.
  intros ((HA & _) & (Hn & _) & (_ & Hd) & _ & Hr & _).
  repeat split; qc2q; lra.
Qed.

Section AreaExtras.

Import YearByYear.

(** For an initial area and rates in the moderate range, the recorded areas
    follow a geometric progression within 1e-9 relative: the total area of
    the horizon year with index [k] is the initial area times the yearly
    growth factor [1 + rn - rd] to the power [k + 5] (four warm-up years and
    the updates up to that year), and the newly added area is [rn + rr]
    times the total area of the year before. *)
Theorem areas_are_geometric
  (g : globals) (ys : list Z) (Ae Anew op_em emb_em : list Qc) :
  moderate_stock (Ae_initial g) (rn g) (rd g) (rr g) (year_GHG_neutrality g) ->
  calculate_emissions_year_by_year g = Ok (ys, Ae, Anew, op_em, emb_em) ->
  ys = range 2025 (year_GHG_neutrality g + 1) /\
  length Ae = Z.to_nat (year_GHG_neutrality g - 2024) /\
  length Anew = Z.to_nat (year_GHG_neutrality g - 2024) /\
  (forall k a, nth_error Ae k = Some a ->
     within (dec 0.000000001) a (Ae_initial g * growth g ^ (k + 5))) /\
  (forall k nw, nth_error Anew k = Some nw ->
     within (dec 0.000000001) nw
       ((rn g + rr g) * (Ae_initial g * growth g ^ (k + 4)))).
Proof.
  intros _ H. rewrite calculate_emissions_year_by_year_spec in H.
  cbv zeta in H. destruct (nonzero_areas (area_evolution g)); [|discriminate].
  injection H as <- <- <- _ _. unfold area_evolution.
  rewrite !length_map, area_evolution_from_length. unfold years.
  rewrite range_length.
  replace (year_GHG_neutrality g + 1 - 2025)%Z
    with (year_GHG_neutrality g - 2024)%Z by lia.
  split; [reflexivity|]. split; [reflexivity|]. split; [reflexivity|]. split.
  - intros k a Hk. rewrite nth_error_map in Hk.
    destruct (nth_error _ k) as [[a' nw]|] eqn:E; [|discriminate].
    injection Hk as <-. apply area_evolution_nth in E. destruct E as [-> _].
    rewrite Ae_2025_growth. replace (k + 5)%nat with (4 + S k)%nat by lia.
    rewrite Qcpower_add.
    replace (Ae_initial g * growth g ^ 4 * growth g ^ S k)
      with (Ae_initial g * (growth g ^ 4 * growth g ^ S k)) by ring.
    apply within_refl. qc_compare.
  - intros k nw Hk. rewrite nth_error_map in Hk.
    destruct (nth_error _ k) as [[a nw']|] eqn:E; [|discriminate].
    injection Hk as <-. apply area_evolution_nth in E. destruct E as [_ ->].
    rewrite Ae_2025_growth. replace (k + 4)%nat with (4 + k)%nat by lia.
    rewrite Qcpower_add.
    replace (Ae_initial g * growth g ^ 4 * growth g ^ k)
      with (Ae_initial g * (growth g ^ 4 * growth g ^ k)) by ring.
    apply within_refl. qc_compare.
Qed.

Lemma moderate_stock_default :
  moderate_stock (Ae_initial default) (rn default) (rd default) (rr default)
    (year_GHG_neutrality default).
Proof.
  unfold moderate_stock. split; [split; qc_compare|]. split; [split; qc_compare|].
  split; [split; qc_compare|]. split; [split; qc_compare|].
  split; [qc_compare|]. cbn. lia.
Qed.

Lemma areas_are_geometric_default :
  match calculate_emissions_year_by_year default with
  | Ok (_, Ae, Anew, _, _) =>
      length Ae = 21%nat /\
      (forall k a, nth_error Ae k = Some a ->
         within (dec 0.000000001) a (Ae_initial default * growth default ^ (k + 5))) /\
      (forall k nw, nth_error Anew k = Some nw ->
         within (dec 0.000000001) nw
           ((rn default + rr default)
            * (Ae_initial default * growth default ^ (k + 4))))
  | Raise _ => False
  end.
Proof.
  destruct (calculate_emissions_year_by_year default)
    as [[[[[ys Ae] Anew] op_em] emb_em]|e] eqn:E.
  - destruct (areas_are_geometric default _ _ _ _ _ moderate_stock_default E)
      as (_ & Hl & _ & Ha & Hn).
    split; [exact Hl|]. split; [exact Ha|exact Hn].
  - exfalso. apply (is_ok_not_raise (calculate_emissions_year_by_year default) e);
      [vm_compute; reflexivity|exact E].
Defined.

(** For an initial area and rates in the moderate range the function does
    not raise: it returns the years 2025 to the neutrality year and lists of
    that length in which every total area and every newly added area is
    positive. *)
Theorem series_returned_for_positive_stock (g : globals) :
  moderate_stock (Ae_initial g) (rn g) (rd g) (rr g) (year_GHG_neutrality g) ->
  exists Ae Anew op_em emb_em : list Qc,
    calculate_emissions_year_by_year g
      = Ok (range 2025 (year_GHG_neutrality g + 1), Ae, Anew, op_em, emb_em) /\
    length Ae = Z.to_nat (year_GHG_neutrality g - 2024) /\
    Forall (fun a => 0 < a) Ae /\ Forall (fun nw => 0 < nw) Anew.
Proof.
  intros Hm. destruct (moderate_stock_positive _ _ _ _ _ Hm) as (HA & Hr & Hd).
  assert (Hq : 0 < growth g) by (unfold growth; qc2q; lra).
  pose proof (area_evolution_positive g (length (years g)) (Ae_2025 g)
                (Ae_2025_positive g HA Hq) Hq Hr) as Hpos.
  rewrite calculate_emissions_year_by_year_spec. cbv zeta.
  fold (area_evolution g) in Hpos.
  rewrite (positive_areas_nonzero _ Hpos).
  do 4 eexists. split; [reflexivity|].
  split; [|split].
  - unfold area_evolution. rewrite length_map, area_evolution_from_length.
    unfold years. rewrite range_length. f_equal. lia.
  - apply Forall_map. eapply Forall_impl; [|exact Hpos]. now intros p [H _].
  - apply Forall_map. eapply Forall_impl; [|exact Hpos]. now intros p [_ H].
Qed.

Lemma series_returned_default :
  exists Ae Anew op_em emb_em : list Qc,
    calculate_emissions_year_by_year default
      = Ok (range 2025 2046, Ae, Anew, op_em, emb_em) /\
    length Ae = 21%nat /\
    Forall (fun a => 0 < a) Ae /\ Forall (fun nw => 0 < nw) Anew.
Proof.
  apply (series_returned_for_positive_stock default). exact moderate_stock_default.
Defined.

End AreaExtras.

(** ** The two averages *)

Section AverageExtras.

Import YearByYear.

Lemma averages_positive (g : globals) :
  0 < Ae_initial g -> 0 < rn g + rr g -> rd g < 1 + rn g ->
  (2025 <= year_GHG_neutrality g)%Z ->
  0 < share_operational g -> 0 < share_embodied g ->
  exists average_op average_emb : Qc,
    averages g = Ok (average_op, average_emb) /\
    0 < average_op /\ 0 < average_emb.
Proof.
  intros HA Hr Hd Hy Hop Hemb.
  assert (Hq : 0 < growth g) by (unfold growth; qc2q; lra).
  pose proof (area_evolution_positive g (length (years g)) (Ae_2025 g)
                (Ae_2025_positive g HA Hq) Hq Hr) as Hpos.
  fold (area_evolution g) in Hpos.
  assert (Hlen : 0 < horizon_length g) by (apply of_int_pos; lia).
  assert (Hne : area_evolution g <> []).
  { intros E. apply (f_equal (@length _)) in E. unfold area_evolution in E.
    rewrite area_evolution_from_length in E. unfold years in E.
    rewrite range_length in E. cbn [length] in E. lia. }
  rewrite averages_spec. cbv zeta.
  rewrite (positive_areas_nonzero _ Hpos).
  pose proof (Qclt_nonzero _ Hlen) as Hlen0. apply Qc_eq_bool_false in Hlen0.
  rewrite Hlen0. cbn [andb negb].
  do 2 eexists. split; [reflexivity|]. split.
  - apply Qcdiv_pos; [|exact Hlen]. apply sum_pos.
    + intros E. apply map_eq_nil in E. contradiction.
    + apply Forall_map. eapply Forall_impl; [|exact Hpos].
      intros p [Ha _]. cbn beta.
      apply Qcdiv_pos; [apply Qcdiv_pos; assumption|assumption].
  - apply Qcdiv_pos; [|exact Hlen]. apply sum_pos.
    + intros E. apply map_eq_nil in E. contradiction.
    + apply Forall_map. eapply Forall_impl; [|exact Hpos].
      intros p [_ Hn]. cbn beta.
      apply Qcdiv_pos; [apply Qcdiv_pos; [apply Qcdiv_pos; assumption|assumption]|].
      apply of_int_pos. lia.
Qed.

(** For a global budget between 186 and 1e6 Gt, a national share between
    1e-6 and 1, a neutrality year from 2025 on and rates in the moderate
    range, [calculate_emissions] returns, and both averages are positive. *)
Theorem calculate_emissions_positive (GB Fn : Qc) (yn : Z) (rn rr rd : Qc) :
  of_int 186 <= GB -> GB <= dec 1e6 -> dec 0.000001 <= Fn -> Fn <= 1 ->
  (2025 <= yn)%Z ->
  moderate_stock ParallelCoordinates.Ae_initial rn rd rr yn ->
  exists average_op_em average_emb_em : Qc,
    ParallelCoordinates.calculate_emissions GB Fn yn rn rr rd
      = Ok (average_op_em, average_emb_em) /\
    0 < average_op_em /\ 0 < average_emb_em.
Proof.
  intros HGB _ HFn' _ Hy Hm. rewrite calculate_emissions_averages.
  destruct (moderate_stock_positive _ _ _ _ _ Hm) as (HA & Hr & Hd).
  assert (HFn : 0 < Fn) by (clear - HFn'; qc2q; lra).
  assert (HG : 0 < ParallelCoordinates.GB_GHG GB).
  { unfold ParallelCoordinates.GB_GHG, ParallelCoordinates.GB'.
    apply Qcdiv_pos; [|qc_compare].
    assert (H : of_int 185 < of_int 186) by qc_compare.
    clear - HGB H. set (u := of_int 185) in *. set (v := of_int 186) in *.
    clearbody u v. qc2q. lra. }
  apply averages_positive; try assumption.
  - unfold share_operational.
    cbn [YearByYear.GB YearByYear.Fn YearByYear.Fb globals_of_call].
    apply Qcmult_pos; [apply Qcmult_pos; [apply Qcmult_pos;
      [apply Qcmult_pos; [exact HG|exact HFn]|qc_compare]|qc_compare]|qc_compare].
  - unfold share_embodied.
    cbn [YearByYear.GB YearByYear.Fn YearByYear.Fb YearByYear.Fe globals_of_call].
    apply Qcmult_pos; [apply Qcmult_pos; [apply Qcmult_pos;
      [apply Qcmult_pos; [exact HG|exact HFn]|qc_compare]|qc_compare]|qc_compare].
Qed.

Lemma calculate_emissions_positive_default :
  exists average_op_em average_emb_em : Qc,
    ParallelCoordinates.calculate_emissions (of_int 550) (dec 0.0106) 2045
      (dec 0.009) (dec 0.01) (dec 0.001)
      = Ok (average_op_em, average_emb_em) /\
    0 < average_op_em /\ 0 < average_emb_em.
Proof.
  apply calculate_emissions_positive;
    [qc_compare | qc_compare | qc_compare | qc_compare | lia |].
  unfold moderate_stock. split; [split; qc_compare|]. split; [split; qc_compare|].
  split; [split; qc_compare|]. split; [split; qc_compare|].
  split; [qc_compare|]. lia.
Defined.

End AverageExtras.

(** ** The file's own constants in binary64 *)

Section RunInBinary64.

Import YearByYearF.

(** For the constants of calculations_year_by_year.py, computed in binary64
    as Python does: the function returns 21 years; the total area grows
    every year, from the area of 2025 on, and so does the newly added area;
    both intensities fall every year. *)
Theorem default_series_is_monotone :
  match calculate_emissions_year_by_year (FL := python_binary64) default64 with
  | Ok (ys, Ae, Anew, op_em, emb_em) =>
      ys = range 2025 2046 /\
      length Ae = 21%nat /\ length Anew = 21%nat /\
      length op_em = 21%nat /\ length emb_em = 21%nat /\
      increasing (Ae_2025 (FL := python_binary64) default64 :: Ae) = true /\
      increasing Anew = true /\
      decreasing op_em = true /\ decreasing emb_em = true
  | Raise _ => False
  end.
Proof.
  pose (chk := fun r : result (list Z * list float * list float * list float * list float) =>
    match r with
    | Ok (_, Ae, Anew, op_em, emb_em) =>
        increasing (Ae_2025 (FL := python_binary64) default64 :: Ae)
        && increasing Anew && decreasing op_em && decreasing emb_em
    | Raise _ => false
    end).
  assert (H : chk (calculate_emissions_year_by_year (FL := python_binary64) default64)
              = true) by (vm_compute; reflexivity).
  destruct (calculate_emissions_year_by_year (FL := python_binary64) default64)
    as [[[[[ys Ae] Anew] op_em] emb_em]|e] eqn:E; [|discriminate H].
  destruct (series_lengths_float default64 ys Ae Anew op_em emb_em E)
    as (Hys & H1 & H2 & H3 & H4).
  unfold chk in H.
  apply andb_true_iff in H. destruct H as [H H8].
  apply andb_true_iff in H. destruct H as [H H7].
  apply andb_true_iff in H. destruct H as [H5 H6].
  repeat split; assumption.
Qed.

(** For the same constants in binary64, the series spends the two budgets:
    the exact sum over the 21 years of [E_op * Ae_current] is within 1e-9
    relative of [share_operational], and the exact sum of
    [E_emb * A_new * 50] is within 1e-9 relative of [share_embodied]. *)
Theorem default_series_spends_the_budgets :
  match calculate_emissions_year_by_year (FL := python_binary64) default64 with
  | Ok (_, Ae, Anew, op_em, emb_em) =>
      exact_within 1e-9 (exact_dot 1 op_em Ae)
        (share_operational (FL := python_binary64) default64) = true /\
      exact_within 1e-9 (exact_dot 50 emb_em Anew)
        (share_embodied (FL := python_binary64) default64) = true
  | Raise _ => False
  end.
Proof.
  assert (H : match calculate_emissions_year_by_year (FL := python_binary64) default64 with
              | Ok (_, Ae, Anew, op_em, emb_em) =>
                  exact_within 1e-9 (exact_dot 1 op_em Ae)
                    (share_operational (FL := python_binary64) default64)
                  && exact_within 1e-9 (exact_dot 50 emb_em Anew)
                       (share_embodied (FL := python_binary64) default64)
              | Raise _ => false
              end = true) by (vm_compute; reflexivity).
  destruct (calculate_emissions_year_by_year (FL := python_binary64) default64)
    as [[[[[ys Ae] Anew] op_em] emb_em]|e]; [|discriminate H].
  apply andb_true_iff in H. exact H.
Qed.

End RunInBinary64.

(** ** The outcome of [solve_for_a_b] *)

Section SolveOutcome.

Context {F : Type} {FL : Float F}.
Variables (x_base : F) (Z_ : F -> F) (factor : F) (quad : (F -> F) -> F -> F -> F).

(** In every arithmetic, [solve_for_a_b] fails only with
    [ZeroDivisionError], where [1 - factor_2025_2045] or [denom] is zero and
    the division of the runtime raises on that; in every other case it
    returns [b = I_constant / denom] and
    [a = b * numerator / (1 - factor_2025_2045)], computed in that order. *)
Theorem solve_for_a_b_outcome :
  let d1 := sub (of_Z 1) factor in
  let dn := Solver.denom Z_ factor quad in
  let b := div (Solver.I_constant x_base) dn in
  let a := div (mul b (Solver.numerator Z_ factor)) d1 in
  Solver.solve_for_a_b x_base Z_ factor quad =
    if zero_division_raises && (is_zero d1 || is_zero dn)
    then Raise ZeroDivisionError
    else Ok (a, b).
Proof.
  cbv zeta. unfold Solver.solve_for_a_b, fdiv.
  fold (Solver.numerator Z_ factor).
  destruct zero_division_raises; cbn [andb bind]; [|reflexivity].
  destruct (is_zero (sub (of_Z 1) factor)); cbn [orb bind]; [reflexivity|].
  fold (Solver.denom Z_ factor quad).
  destruct (is_zero (Solver.denom Z_ factor quad)); reflexivity.
Qed.

End SolveOutcome.
